(** * Expense Management MCP server: the tools of [mcp_server/server.py]

    The server exposes eight tools over one SQLite database with two
    tables, [categories] and [expenses].  Every tool opens a connection,
    runs one or two SQL statements and returns a string: either an
    f-string message or [json.dumps] of a list or dict.

    The embedding has three layers, each following the source:
      - the tables as lists of rows in rowid order ([db]);
      - the SQL operators the statements use ([Sql]: LEFT JOIN, GROUP BY,
        SUM, COUNT, COALESCE, ORDER BY ... DESC);
      - the tools themselves, as functions [db -> reply * db].

    Amounts are Python floats stored in a numeric column; they are
    modelled as exact rationals [Q], so rounding is not part of the
    model and equalities between regrouped sums are stated with [==].
    Timestamps are the TEXT values SQLite stores; they are compared
    bytewise, as SQLite's default collation does.

    Python ints are unbounded ([Z]); SQLite integers are signed 64-bit.
    [cursor.execute] binds its parameters before the statement runs and
    raises [OverflowError] for an int outside that range, so a tool that
    passes an [id] or [category_id] to a statement can end in that
    exception, leaving the database as it found it. *)

From Stdlib Require Import ZArith QArith Qminmax String Ascii List Bool Lia.
From Stdlib Require Import Permutation Sorted OrderedTypeEx.
Import ListNotations.

Set Implicit Arguments.
Set Warnings "-register-all".

(* ================================================================== *)
(** ** Values returned to the caller *)

(** What [json.dumps] is applied to. *)
Inductive json : Type :=
| JNull
| JInt (n : Z)
| JNum (q : Q)
| JStr (s : string)
| JList (items : list json)
| JDict (fields : list (string * json)).

(** An f-string before rendering: literal text and interpolated values. *)
Inductive piece : Type :=
| Lit (s : string)
| FmtInt (n : Z)
| FmtNum (q : Q)
| FmtStr (s : string).

(** The exceptions a call can end in. *)
Inductive exn : Type :=
| OverflowError.

(** What a call yields: the [str] it returns, a message or a JSON dump,
    or the exception it raises. *)
Inductive reply : Type :=
| Text (parts : list piece)
| Dumps (v : json)
| Raise (e : exn).

Definition json_opt {A : Type} (f : A -> json) (o : option A) : json :=
  match o with
  | Some a => f a
  | None => JNull
  end.

(* ================================================================== *)
(** ** The two tables *)

(** The tables are created by the web application, not by the server:
    the columns below are the ones the tools read and write.  [id] is the
    rowid the store assigns, [created_at] defaults to the store's clock and
    [invoice_url] to NULL.  The tools never validate an argument and the
    connection does not enable foreign keys, so the only constraint in the
    model is that [id] is a primary key ([primary_keys]). *)

Module Category.
Record t : Type := mk {
  id : Z;
  name : string;
  description : option string;
  budget_limit : option Q;
  created_at : string
}.
End Category.

Module Expense.
Record t : Type := mk {
  id : Z;
  category_id : Z;
  company_name : string;
  amount : Q;
  sales_email : string;
  due_date : option string;
  status : string;
  invoice_url : option string;
  created_at : string
}.
End Expense.

(** The database file: both tables, rows in rowid order. *)
Record db : Type := mkdb {
  categories : list Category.t;
  expenses : list Expense.t
}.

Definition empty_db : db := mkdb [] [].

(** [id] is the primary key of each table. *)
Definition primary_keys (d : db) : Prop :=
  NoDup (map Category.id (categories d)) /\
  NoDup (map Expense.id (expenses d)).

(* ================================================================== *)
(** ** The SQL operators used by the statements *)

Module Sql.

Section Join.
Variables A B : Type.
Variable on : A -> B -> bool.

(** [a LEFT JOIN b ON on]: every left row paired with each matching
    right row, or once with NULL when none matches. *)
Definition join_row (r : list B) (a : A) : list (A * option B) :=
  match filter (on a) r with
  | [] => [(a, None)]
  | b :: bs => map (fun x => (a, Some x)) (b :: bs)
  end.

Definition left_join (l : list A) (r : list B) : list (A * option B) :=
  flat_map (join_row r) l.
End Join.

Section GroupBy.
Variable R : Type.
Variable key : R -> Z.

(** A group is never empty: its first row and the rows that joined it. *)
Fixpoint add_to_groups (r : R) (gs : list (R * list R)) : list (R * list R) :=
  match gs with
  | [] => [(r, [])]
  | (h, t) :: gs' =>
      if (key h =? key r)%Z then (h, t ++ [r]) :: gs'
      else (h, t) :: add_to_groups r gs'
  end.

(** [GROUP BY key]: groups in order of first occurrence. *)
Definition group_by (rows : list R) : list (R * list R) :=
  fold_left (fun gs r => add_to_groups r gs) rows [].

Definition group_rows (g : R * list R) : list R := fst g :: snd g.
End GroupBy.

(** [SUM(x)]: NULL when there is no non-NULL input. *)
Definition sum_step (acc : option Q) (x : option Q) : option Q :=
  match x, acc with
  | None, _ => acc
  | Some v, None => Some v
  | Some v, Some s => Some (s + v)%Q
  end.

Definition sum (xs : list (option Q)) : option Q :=
  fold_left sum_step xs None.

(** [COUNT(x)]: the number of non-NULL inputs. *)
Definition count {A : Type} (xs : list (option A)) : Z :=
  Z.of_nat
    (length (filter (fun x => match x with Some _ => true | None => false end)
                    xs)).

(** [COALESCE(x, d)]. *)
Definition coalesce {A : Type} (x : option A) (d : A) : A :=
  match x with
  | Some v => v
  | None => d
  end.

Section OrderBy.
Variables R K : Type.
Variable leb : K -> K -> bool.
Variable key : R -> K.

(** [ORDER BY key DESC].  SQL leaves the order of rows with equal keys
    open; the model keeps them in input order. *)
Fixpoint insert_desc (x : R) (l : list R) : list R :=
  match l with
  | [] => [x]
  | y :: l' =>
      if leb (key y) (key x) then x :: y :: l'
      else y :: insert_desc x l'
  end.

Fixpoint order_by_desc (rows : list R) : list R :=
  match rows with
  | [] => []
  | x :: rest => insert_desc x (order_by_desc rest)
  end.

(** [a] may stand before [b] in a descending order. *)
Definition desc (a b : R) : Prop := leb (key b) (key a) = true.
End OrderBy.

(** The rowid SQLite gives an inserted row ([cursor.lastrowid]): one more
    than the largest in use, 1 in an empty table.  (When the largest is
    2^63 - 1 SQLite tries unused rowids at random instead; the model does
    not follow it there, and the properties below use only that the new
    id is not in use.) *)
Definition next_rowid (ids : list Z) : Z :=
  match ids with
  | [] => 1%Z
  | x :: rest => (fold_left Z.max rest x + 1)%Z
  end.

End Sql.

(* ================================================================== *)
(** ** Binding parameters *)

(** The range of an SQLite INTEGER. *)
Definition int64_min : Z := (- 2 ^ 63)%Z.
Definition int64_max : Z := (2 ^ 63 - 1)%Z.

Definition fits_int64 (n : Z) : bool :=
  (int64_min <=? n)%Z && (n <=? int64_max)%Z.

(** A value of the [params] sequence passed to [cursor.execute]. *)
Inductive param : Type :=
| PInt (n : Z)
| PNum (q : Q)
| PStr (s : string)
| PNull.

Definition param_opt {A : Type} (f : A -> param) (o : option A) : param :=
  match o with
  | Some a => f a
  | None => PNull
  end.

(** Strings, floats and [None] always bind; an int binds when it fits. *)
Definition binds (p : param) : bool :=
  match p with
  | PInt n => fits_int64 n
  | _ => true
  end.

(** [cursor.execute(sql, params)] runs the statement when every
    parameter binds and raises [OverflowError] otherwise. *)
Definition bindable (params : list param) : bool := forallb binds params.

(* ================================================================== *)
(** ** Python values *)

(** [x or 0] on a number: a zero is falsy and is replaced by the int 0. *)
Definition py_or_zero (x : Q) : Q :=
  if Qeq_bool x 0 then 0%Q else x.

(** The dict each expense row is copied into. *)
Definition expense_json (row : Expense.t) : json :=
  JDict [("id", JInt (Expense.id row));
         ("category_id", JInt (Expense.category_id row));
         ("company_name", JStr (Expense.company_name row));
         ("amount", JNum (Expense.amount row));
         ("sales_email", JStr (Expense.sales_email row));
         ("due_date", json_opt JStr (Expense.due_date row));
         ("status", JStr (Expense.status row));
         ("invoice_url", json_opt JStr (Expense.invoice_url row));
         ("created_at", JStr (Expense.created_at row))]%string.

Definition not_found (id : Z) : reply :=
  Text [Lit "Error: Expense with ID "; FmtInt id; Lit " not found"].

(* ================================================================== *)
(** ** Category tools *)

(** The join condition shared by both aggregate queries:
    [c.id = e.category_id AND e.status = 'paid']. *)
Definition on_paid (c : Category.t) (e : Expense.t) : bool :=
  (Category.id c =? Expense.category_id e)%Z && (Expense.status e =? "paid")%string.

Definition joined : Type := (Category.t * option Expense.t)%type.

(** [FROM categories c LEFT JOIN expenses e ON ... GROUP BY c.id]. *)
Definition categories_by_id (d : db) : list (joined * list joined) :=
  Sql.group_by (fun r : joined => Category.id (fst r))
    (Sql.left_join on_paid (categories d) (expenses d)).

Definition e_amount (r : joined) : option Q := option_map Expense.amount (snd r).
Definition e_id (r : joined) : option Z := option_map Expense.id (snd r).

(** [SELECT c.*, COALESCE(SUM(e.amount), 0) as total_spent ...
     ORDER BY c.created_at DESC]; the columns of [c] are read from the
    first row of the group. *)
Definition select_categories (d : db) : list (Category.t * Q) :=
  Sql.order_by_desc String.leb (fun r => Category.created_at (fst r))
    (map (fun g => (fst (fst g),
                    Sql.coalesce (Sql.sum (map e_amount (Sql.group_rows g))) 0%Q))
         (categories_by_id d)).

Definition category_json (row : Category.t * Q) : json :=
  JDict [("id", JInt (Category.id (fst row)));
         ("name", JStr (Category.name (fst row)));
         ("description", json_opt JStr (Category.description (fst row)));
         ("budget_limit", json_opt JNum (Category.budget_limit (fst row)));
         ("created_at", JStr (Category.created_at (fst row)));
         ("total_spent", JNum (snd row))]%string.

Definition list_categories (d : db) : reply * db :=
  (Dumps (JList (map category_json (select_categories d))), d).

(** [now] is the store's clock, the default of [created_at].  The
    parameters are a [str] and optional [str] and [float]: all bind. *)
Definition create_category (now : string) (name : string)
    (description : option string) (budget : option Q) (d : db) : reply * db :=
  let category_id := Sql.next_rowid (map Category.id (categories d)) in
  (Text [Lit "Category '"; FmtStr name; Lit "' created successfully with ID: ";
         FmtInt category_id],
   mkdb (categories d ++ [Category.mk category_id name description budget now])
        (expenses d)).

(* ================================================================== *)
(** ** Expense tools *)

Definition where_all (query : list (Expense.t -> bool)) (e : Expense.t) : bool :=
  forallb (fun cond => cond e) query.

(** The query [list_expenses] builds, with its parameters.  It starts as
    [WHERE 1=1] with no parameter; a condition and its parameter are
    appended for [category_id] when it is not [None] and for [status]
    when it is truthy. *)
Definition expenses_query (category_id : option Z) (status : option string)
    : list (Expense.t -> bool) * list param :=
  let query := [fun _ : Expense.t => true] in
  let params := [] in
  let '(query, params) :=
    match category_id with
    | Some c => (query ++ [fun e => (Expense.category_id e =? c)%Z],
                 params ++ [PInt c])
    | None => (query, params)
    end in
  let '(query, params) :=
    match status with
    | Some s =>
        if (s =? "")%string then (query, params)
        else (query ++ [fun e => (Expense.status e =? s)%string],
              params ++ [PStr s])
    | None => (query, params)
    end in
  (query, params).

(** [cursor.execute(query, params)] and [cursor.fetchall()]: the rows
    fetched, or the exception raised while binding. *)
Definition select_expenses (category_id : option Z) (status : option string)
    (d : db) : exn + list Expense.t :=
  let '(query, params) := expenses_query category_id status in
  if bindable params then
    inr (Sql.order_by_desc String.leb Expense.created_at
           (filter (where_all query) (expenses d)))
  else inl OverflowError.

Definition list_expenses (category_id : option Z) (status : option string)
    (d : db) : reply * db :=
  match select_expenses category_id status d with
  | inr rows => (Dumps (JList (map expense_json rows)), d)
  | inl e => (Raise e, d)
  end.

Definition create_expense (now : string) (company_name : string) (amount : Q)
    (category_id : Z) (sales_email : string) (due_date : option string)
    (d : db) : reply * db :=
  if bindable [PInt category_id; PStr company_name; PNum amount;
               PStr sales_email; param_opt PStr due_date] then
    let expense_id := Sql.next_rowid (map Expense.id (expenses d)) in
    (Text [Lit "Expense for "; FmtStr company_name; Lit " ($"; FmtNum amount;
           Lit ") created successfully with ID: "; FmtInt expense_id],
     mkdb (categories d)
          (expenses d ++
           [Expense.mk expense_id category_id company_name amount sales_email
                       due_date "pending" None now]))
  else (Raise OverflowError, d).

(** [SELECT ... FROM expenses WHERE id = ?]. *)
Definition expenses_with_id (id : Z) (d : db) : list Expense.t :=
  filter (fun e => (Expense.id e =? id)%Z) (expenses d).

Definition fetchone {A : Type} (rows : list A) : option A := hd_error rows.

Definition get_expense (id : Z) (d : db) : reply * db :=
  if bindable [PInt id] then
    match fetchone (expenses_with_id id d) with
    | None => (not_found id, d)
    | Some row => (Dumps (expense_json row), d)
    end
  else (Raise OverflowError, d).

(** One [column = ?] of the UPDATE statement with its parameter. *)
Inductive assignment : Type :=
| SetCompanyName (v : string)
| SetAmount (v : Q)
| SetCategoryId (v : Z)
| SetSalesEmail (v : string)
| SetDueDate (v : string)
| SetStatus (v : string).

Definition assign (e : Expense.t) (a : assignment) : Expense.t :=
  let 'Expense.mk i c n m s du st inv cr := e in
  match a with
  | SetCompanyName v => Expense.mk i c v m s du st inv cr
  | SetAmount v => Expense.mk i c n v s du st inv cr
  | SetCategoryId v => Expense.mk i v n m s du st inv cr
  | SetSalesEmail v => Expense.mk i c n m v du st inv cr
  | SetDueDate v => Expense.mk i c n m s (Some v) st inv cr
  | SetStatus v => Expense.mk i c n m s du v inv cr
  end.

(** [UPDATE expenses SET updates WHERE id = ?]. *)
Definition sql_update (updates : list assignment) (id : Z)
    (rows : list Expense.t) : list Expense.t :=
  map (fun e => if (Expense.id e =? id)%Z then fold_left assign updates e else e)
      rows.

(** [if v is not None: updates.append(...); params.append(v)]. *)
Definition append_if {A : Type} (col : A -> assignment) (v : option A)
    (updates : list assignment) : list assignment :=
  match v with
  | Some x => updates ++ [col x]
  | None => updates
  end.

Definition build_updates (company_name : option string) (amount : option Q)
    (category_id : option Z) (sales_email due_date status : option string)
    : list assignment :=
  let updates := [] in
  let updates := append_if SetCompanyName company_name updates in
  let updates := append_if SetAmount amount updates in
  let updates := append_if SetCategoryId category_id updates in
  let updates := append_if SetSalesEmail sales_email updates in
  let updates := append_if SetDueDate due_date updates in
  let updates := append_if SetStatus status updates in
  updates.

(** The parameter appended with an assignment. *)
Definition param_of (a : assignment) : param :=
  match a with
  | SetCompanyName v => PStr v
  | SetAmount v => PNum v
  | SetCategoryId v => PInt v
  | SetSalesEmail v => PStr v
  | SetDueDate v => PStr v
  | SetStatus v => PStr v
  end.

(** The existence check binds [id]; the UPDATE binds the supplied values
    and then [id]. *)
Definition update_expense (id : Z) (company_name : option string)
    (amount : option Q) (category_id : option Z)
    (sales_email due_date status : option string) (d : db) : reply * db :=
  if bindable [PInt id] then
    match fetchone (map Expense.id (expenses_with_id id d)) with
    | None => (not_found id, d)
    | Some _ =>
        match build_updates company_name amount category_id sales_email
                            due_date status with
        | [] => (Text [Lit "No fields to update"], d)
        | updates =>
            let params := map param_of updates ++ [PInt id] in
            if bindable params then
              (Text [Lit "Expense "; FmtInt id; Lit " updated successfully"],
               mkdb (categories d) (sql_update updates id (expenses d)))
            else (Raise OverflowError, d)
        end
    end
  else (Raise OverflowError, d).

Definition delete_expense (id : Z) (d : db) : reply * db :=
  if bindable [PInt id] then
    let rowcount := length (expenses_with_id id d) in
    let d' := mkdb (categories d)
                   (filter (fun e => negb (Expense.id e =? id)%Z)
                           (expenses d)) in
    if (rowcount =? 0)%nat then (not_found id, d')
    else (Text [Lit "Expense "; FmtInt id; Lit " deleted successfully"], d')
  else (Raise OverflowError, d).

(* ================================================================== *)
(** ** Analytics tool *)

Module Summary.
(** A row of the summary query; also the dict appended per row. *)
Record t : Type := mk {
  category : string;
  budget : option Q;
  total_spent : Q;
  expense_count : Z
}.
End Summary.

(** [SELECT c.name, c.budget_limit, COALESCE(SUM(e.amount), 0),
     COUNT(e.id) ... GROUP BY c.id ORDER BY total_spent DESC]. *)
Definition select_summary (d : db) : list Summary.t :=
  Sql.order_by_desc Qle_bool Summary.total_spent
    (map (fun g =>
            Summary.mk (Category.name (fst (fst g)))
                       (Category.budget_limit (fst (fst g)))
                       (Sql.coalesce (Sql.sum (map e_amount (Sql.group_rows g))) 0%Q)
                       (Sql.count (map e_id (Sql.group_rows g))))
         (categories_by_id d)).

(** One turn of the loop over the fetched rows. *)
Definition summary_step (acc : list Summary.t * Q) (row : Summary.t)
    : list Summary.t * Q :=
  let '(summary, total_spending) := acc in
  let total_spent := py_or_zero (Summary.total_spent row) in
  let total_spending := (total_spending + total_spent)%Q in
  (summary ++ [Summary.mk (Summary.category row) (Summary.budget row)
                          total_spent (Summary.expense_count row)],
   total_spending).

(** [(summary, total_spending)] when the loop ends. *)
Definition spending_summary (d : db) : list Summary.t * Q :=
  fold_left summary_step (select_summary d) ([], 0%Q).

Definition summary_json (s : Summary.t) : json :=
  JDict [("category", JStr (Summary.category s));
         ("total_spent", JNum (Summary.total_spent s));
         ("expense_count", JInt (Summary.expense_count s));
         ("budget", json_opt JNum (Summary.budget s))]%string.

(** [json.dumps({"total_spending": ..., "by_category": ...})]. *)
Definition summary_reply (summary : list Summary.t) (total_spending : Q)
    : reply :=
  Dumps (JDict [("total_spending", JNum total_spending);
                ("by_category", JList (map summary_json summary))]%string).

Definition get_spending_summary (d : db) : reply * db :=
  let '(summary, total_spending) := spending_summary d in
  (summary_reply summary total_spending, d).

(* ================================================================== *)
(** ** The tool registry *)

Inductive call : Type :=
| ListCategories
| CreateCategory (now name : string) (description : option string)
                 (budget : option Q)
| ListExpenses (category_id : option Z) (status : option string)
| CreateExpense (now company_name : string) (amount : Q) (category_id : Z)
                (sales_email : string) (due_date : option string)
| GetExpense (id : Z)
| UpdateExpense (id : Z) (company_name : option string) (amount : option Q)
                (category_id : option Z)
                (sales_email due_date status : option string)
| DeleteExpense (id : Z)
| GetSpendingSummary.

Definition dispatch (c : call) (d : db) : reply * db :=
  match c with
  | ListCategories => list_categories d
  | CreateCategory now name description budget =>
      create_category now name description budget d
  | ListExpenses category_id status => list_expenses category_id status d
  | CreateExpense now company_name amount category_id sales_email due_date =>
      create_expense now company_name amount category_id sales_email due_date d
  | GetExpense id => get_expense id d
  | UpdateExpense id company_name amount category_id sales_email due_date status =>
      update_expense id company_name amount category_id sales_email due_date
                     status d
  | DeleteExpense id => delete_expense id d
  | GetSpendingSummary => get_spending_summary d
  end.

(** The database after a sequence of calls. *)
Definition run (calls : list call) (d : db) : db :=
  fold_left (fun d c => snd (dispatch c d)) calls d.

(* ================================================================== *)
(** ** The vocabulary of the specification *)

(** The sum of a list of amounts. *)
Definition total (xs : list Q) : Q := fold_right Qplus 0%Q xs.

(** Python's [sum(xs)]: left to right, starting from the int 0. *)
Definition py_sum (xs : list Q) : Q := fold_left Qplus xs 0%Q.

Definition is_paid (e : Expense.t) : bool :=
  (Expense.status e =? "paid")%string.

(** The paid expenses of the category with id [cid]. *)
Definition paid_expenses (cid : Z) (d : db) : list Expense.t :=
  filter (fun e => (Expense.category_id e =? cid)%Z && is_paid e) (expenses d).

Definition total_paid (cid : Z) (d : db) : Q :=
  total (map Expense.amount (paid_expenses cid d)).

Definition count_paid (cid : Z) (d : db) : Z :=
  Z.of_nat (length (paid_expenses cid d)).

(** All paid expenses, whatever their [category_id]. *)
Definition all_paid (d : db) : list Expense.t :=
  filter is_paid (expenses d).

(** [category_id] is the id of some row of [categories]. *)
Definition has_category (d : db) (e : Expense.t) : bool :=
  existsb (fun c => (Category.id c =? Expense.category_id e)%Z) (categories d).

(** The paid expenses whose category exists. *)
Definition paid_in_category (d : db) : list Expense.t :=
  filter (fun e => is_paid e && has_category d e) (expenses d).

(** The rows the left join yields for one left row, as a group. *)
Definition join_group (A B : Type) (on : A -> B -> bool) (r : list B) (a : A)
    : (A * option B) * list (A * option B) :=
  match filter (on a) r with
  | [] => ((a, None), [])
  | b :: bs => ((a, Some b), map (fun x => (a, Some x)) bs)
  end.

(** The row the summary query yields for a category. *)
Definition summary_row (d : db) (c : Category.t) : Summary.t :=
  let rows := Sql.group_rows (join_group on_paid (expenses d) c) in
  Summary.mk (Category.name c) (Category.budget_limit c)
             (Sql.coalesce (Sql.sum (map e_amount rows)) 0%Q)
             (Sql.count (map e_id rows)).

(** The dict the loop of [get_spending_summary] appends for a row. *)
Definition summary_entry (row : Summary.t) : Summary.t :=
  Summary.mk (Summary.category row) (Summary.budget row)
             (py_or_zero (Summary.total_spent row))
             (Summary.expense_count row).

(** [id] is the id of some expense row. *)
Definition expense_exists (id : Z) (d : db) : Prop :=
  In id (map Expense.id (expenses d)).

(** What [list_expenses] is asked for: each filter that is supplied must
    hold of the row. *)
Definition matches (category_id : option Z) (status : option string)
    (e : Expense.t) : bool :=
  match category_id with
  | Some c => (Expense.category_id e =? c)%Z
  | None => true
  end &&
  match status with
  | Some s => (Expense.status e =? s)%string
  | None => true
  end.


(** A supplied value replaces the old one; an omitted one keeps it. *)
Definition supplied_or {A : Type} (new : option A) (old : A) : A :=
  match new with
  | Some v => v
  | None => old
  end.

(** The row [e] with exactly the supplied fields replaced. *)
Definition with_fields (company_name : option string) (amount : option Q)
    (category_id : option Z) (sales_email due_date status : option string)
    (e : Expense.t) : Expense.t :=
  Expense.mk (Expense.id e)
             (supplied_or category_id (Expense.category_id e))
             (supplied_or company_name (Expense.company_name e))
             (supplied_or amount (Expense.amount e))
             (supplied_or sales_email (Expense.sales_email e))
             (match due_date with
              | Some v => Some v
              | None => Expense.due_date e
              end)
             (supplied_or status (Expense.status e))
             (Expense.invoice_url e)
             (Expense.created_at e).

(** No optional argument of [update_expense] is supplied. *)
Definition nothing_supplied (company_name : option string) (amount : option Q)
    (category_id : option Z) (sales_email due_date status : option string)
    : Prop :=
  company_name = None /\ amount = None /\ category_id = None /\
  sales_email = None /\ due_date = None /\ status = None.

(** An optional int argument that, when supplied, fits an SQLite
    INTEGER. *)
Definition fits_if_supplied (n : option Z) : Prop :=
  forall c, n = Some c -> fits_int64 c = true.

(** The three values of the status enumeration. *)
Definition valid_status (s : string) : Prop :=
  s = "pending"%string \/ s = "paid"%string \/ s = "cancelled"%string.

Definition statuses_valid (d : db) : Prop :=
  Forall (fun e => valid_status (Expense.status e)) (expenses d).

(** A call that, when it supplies a status, supplies one of the three. *)
Definition status_respected (c : call) : Prop :=
  match c with
  | UpdateExpense _ _ _ _ _ _ (Some s) => valid_status s
  | _ => True
  end.

(* ================================================================== *)
(** ** Sample databases *)

(** Two categories, a paid and a pending expense of the first, and a paid
    expense whose [category_id] names no category. *)
Definition sample_db : db :=
  mkdb
    [Category.mk 1 "Software" (Some "Software subscriptions and licenses"%string)
                 (Some 5000%Q) "2024-12-01 10:00:00";
     Category.mk 2 "Marketing" None (Some 10000%Q) "2024-12-01 10:00:05"]
    [Expense.mk 1 1 "TechSupplies Inc" 891%Q "billing@techsupplies.com"
                (Some "2024-12-15"%string) "paid" None "2024-12-02 09:00:00";
     Expense.mk 2 1 "CloudHost" (199 # 2)%Q "ar@cloudhost.example"
                None "pending" None "2024-12-03 09:00:00";
     Expense.mk 3 77 "Unfiled Ltd" 5%Q "pay@unfiled.example"
                None "paid" None "2024-12-04 09:00:00"].

(* ================================================================== *)
(** * Properties of the SQL operators *)

Unset Implicit Arguments.

Section OrderByFacts.
Variables R K : Type.
Variable leb : K -> K -> bool.
Variable key : R -> K.
Hypothesis leb_total : forall a b, leb a b = true \/ leb b a = true.
Hypothesis leb_trans :
  forall a b c, leb a b = true -> leb b c = true -> leb a c = true.

Lemma insert_desc_perm (x : R) (l : list R) :
  Permutation (Sql.insert_desc leb key x l) (x :: l).
Proof.
  induction l as [|y l IH]; simpl.
  - apply Permutation_refl.
  - destruct (leb (key y) (key x)).
    + apply Permutation_refl.
    + apply perm_trans with (y :: x :: l).
      * now apply perm_skip.
      * apply perm_swap.
Qed.

Lemma order_by_desc_perm (l : list R) :
  Permutation (Sql.order_by_desc leb key l) l.
Proof.
  induction l as [|x l IH]; simpl.
  - apply perm_nil.
  - eapply perm_trans; [apply insert_desc_perm|now apply perm_skip].
Qed.

Lemma insert_desc_sorted (x : R) (l : list R) :
  StronglySorted (Sql.desc leb key) l ->
  StronglySorted (Sql.desc leb key) (Sql.insert_desc leb key x l).
Proof.
  induction 1 as [|y l Hs IH Hy]; simpl.
  - repeat constructor.
  - destruct (leb (key y) (key x)) eqn:E.
    + constructor; [now constructor|].
      constructor; [exact E|].
      eapply Forall_impl; [|exact Hy].
      intros z Hz. unfold Sql.desc in *. now apply leb_trans with (key y).
    + constructor; [exact IH|].
      apply (Permutation_Forall (Permutation_sym (insert_desc_perm x l))).
      constructor; [|exact Hy].
      unfold Sql.desc. destruct (leb_total (key x) (key y)) as [H|H]; congruence.
Qed.

Lemma order_by_desc_sorted (l : list R) :
  StronglySorted (Sql.desc leb key) (Sql.order_by_desc leb key l).
Proof.
  induction l as [|x l IH]; simpl.
  - constructor.
  - now apply insert_desc_sorted.
Qed.
End OrderByFacts.

(** Sorting the image of [f] is the image of sorting by [key] after [f]. *)
Lemma order_by_desc_map (A R K : Type) (leb : K -> K -> bool) (key : R -> K)
    (f : A -> R) (l : list A) :
  Sql.order_by_desc leb key (map f l) =
  map f (Sql.order_by_desc leb (fun a => key (f a)) l).
Proof.
  induction l as [|x l IH]; simpl; [reflexivity|].
  rewrite IH. generalize (Sql.order_by_desc leb (fun a => key (f a)) l).
  intros s. induction s as [|y s IHs]; simpl; [reflexivity|].
  destruct (leb (key (f y)) (key (f x))); simpl; [reflexivity|].
  now rewrite IHs.
Qed.

(** The two orders the queries sort by. *)
Lemma string_leb_trans (a b c : string) :
  String.leb a b = true -> String.leb b c = true -> String.leb a c = true.
Proof.
  unfold String.leb. intros Hab Hbc.
  destruct (String.compare a b) eqn:Eab; try discriminate;
  destruct (String.compare b c) eqn:Ebc; try discriminate.
  - apply String.compare_eq_iff in Eab. subst. now rewrite Ebc.
  - apply String.compare_eq_iff in Eab. subst. now rewrite Ebc.
  - apply String.compare_eq_iff in Ebc. subst. now rewrite Eab.
  - apply String_as_OT.cmp_lt in Eab. apply String_as_OT.cmp_lt in Ebc.
    pose proof (String_as_OT.lt_trans _ _ _ Eab Ebc) as H.
    apply String_as_OT.cmp_lt in H. unfold String_as_OT.cmp in H.
    now rewrite H.
Qed.

Lemma Qle_bool_total (a b : Q) : Qle_bool a b = true \/ Qle_bool b a = true.
Proof.
  destruct (Qlt_le_dec a b) as [H|H].
  - left. apply Qle_bool_iff. now apply Qlt_le_weak.
  - right. now apply Qle_bool_iff.
Qed.

Lemma Qle_bool_trans (a b c : Q) :
  Qle_bool a b = true -> Qle_bool b c = true -> Qle_bool a c = true.
Proof.
  rewrite !Qle_bool_iff. apply Qle_trans.
Qed.

Section GroupByFacts.
Variable R : Type.
Variable key : R -> Z.

(** A row with a new key opens a group at the end. *)
Lemma add_to_groups_new (r : R) (gs : list (R * list R)) :
  (forall g, In g gs -> key (fst g) <> key r) ->
  Sql.add_to_groups key r gs = gs ++ [(r, [])].
Proof.
  induction gs as [|[h t] gs IH]; simpl; intros Hnew; [reflexivity|].
  destruct (Z.eqb_spec (key h) (key r)) as [E|_].
  - exfalso. exact (Hnew (h, t) (or_introl eq_refl) E).
  - f_equal. apply IH. intros g Hg. apply Hnew. now right.
Qed.

(** A row with the key of an open group joins that group. *)
Lemma add_to_groups_old (r h : R) (t : list R) (gs1 gs2 : list (R * list R)) :
  (forall g, In g gs1 -> key (fst g) <> key r) ->
  key h = key r ->
  Sql.add_to_groups key r (gs1 ++ (h, t) :: gs2) = gs1 ++ (h, t ++ [r]) :: gs2.
Proof.
  induction gs1 as [|[h1 t1] gs1 IH]; simpl; intros Hnew Hk.
  - rewrite Hk, Z.eqb_refl. reflexivity.
  - destruct (Z.eqb_spec (key h1) (key r)) as [E|_].
    + exfalso. exact (Hnew (h1, t1) (or_introl eq_refl) E).
    + f_equal. apply IH; [|exact Hk]. intros g Hg. apply Hnew. now right.
Qed.

Lemma fold_add_old (rows : list R) (h : R) (t : list R)
    (gs1 gs2 : list (R * list R)) :
  (forall g, In g gs1 -> key (fst g) <> key h) ->
  Forall (fun r => key r = key h) rows ->
  fold_left (fun gs r => Sql.add_to_groups key r gs) rows
            (gs1 ++ (h, t) :: gs2) = gs1 ++ (h, t ++ rows) :: gs2.
Proof.
  intros Hnew Hrows. revert t.
  induction Hrows as [|r rows Hr _ IH]; intros t; simpl.
  - now rewrite app_nil_r.
  - rewrite add_to_groups_old.
    + rewrite IH, <- app_assoc. reflexivity.
    + intros g Hg. rewrite Hr. now apply Hnew.
    + now rewrite Hr.
Qed.

(** Rows that arrive block by block, one key per block and no key
    twice, are grouped into exactly these blocks. *)
Lemma fold_add_blocks (blocks acc : list (R * list R)) :
  Forall (fun g => Forall (fun r => key r = key (fst g)) (snd g)) blocks ->
  NoDup (map (fun g => key (fst g)) (acc ++ blocks)) ->
  fold_left (fun gs r => Sql.add_to_groups key r gs)
            (flat_map (@Sql.group_rows R) blocks) acc = acc ++ blocks.
Proof.
  intros Hb. revert acc.
  induction Hb as [|[h t] blocks Hg _ IH]; intros acc Hnd; simpl.
  - now rewrite app_nil_r.
  - assert (Hfresh : forall g, In g acc -> key (fst g) <> key h).
    { intros g Hin E. rewrite map_app in Hnd. simpl in Hnd.
      apply NoDup_remove_2 in Hnd. apply Hnd, in_or_app. left.
      rewrite <- E. now apply (in_map (fun g => key (fst g))). }
    rewrite fold_left_app. rewrite (add_to_groups_new h acc Hfresh).
    rewrite fold_add_old by (exact Hfresh || exact Hg). simpl.
    rewrite (IH (acc ++ [(h, t)])).
    + now rewrite <- app_assoc.
    + now rewrite <- app_assoc.
Qed.

Lemma group_by_blocks (blocks : list (R * list R)) :
  Forall (fun g => Forall (fun r => key r = key (fst g)) (snd g)) blocks ->
  NoDup (map (fun g => key (fst g)) blocks) ->
  Sql.group_by key (flat_map (@Sql.group_rows R) blocks) = blocks.
Proof.
  intros Hb Hnd. unfold Sql.group_by. now rewrite fold_add_blocks.
Qed.
End GroupByFacts.

(* ================================================================== *)
(** * The aggregate queries, category by category *)

Lemma left_join_blocks (A B : Type) (on : A -> B -> bool) (l : list A)
    (r : list B) :
  Sql.left_join on l r =
  flat_map (@Sql.group_rows _) (map (join_group on r) l).
Proof.
  unfold Sql.left_join. induction l as [|a l IH]; simpl; [reflexivity|].
  rewrite IH. f_equal.
  unfold Sql.join_row, join_group, Sql.group_rows.
  now destruct (filter (on a) r).
Qed.

Lemma join_group_key (A B : Type) (on : A -> B -> bool) (r : list B) (a : A) :
  fst (fst (join_group on r a)) = a /\
  Forall (fun x => fst x = a) (snd (join_group on r a)).
Proof.
  unfold join_group. destruct (filter (on a) r) as [|b bs]; simpl.
  - split; [reflexivity|constructor].
  - split; [reflexivity|]. apply Forall_forall. intros x Hx.
    apply in_map_iff in Hx. destruct Hx as [y [<- _]]. reflexivity.
Qed.

(** With [id] a key of [categories], [GROUP BY c.id] yields one group per
    category row, in table order. *)
Lemma categories_by_id_rows (d : db) :
  NoDup (map Category.id (categories d)) ->
  categories_by_id d = map (join_group on_paid (expenses d)) (categories d).
Proof.
  intros Hnd. unfold categories_by_id. rewrite left_join_blocks.
  apply group_by_blocks.
  - apply Forall_forall. intros g Hg. apply in_map_iff in Hg.
    destruct Hg as [c [<- _]].
    destruct (join_group_key _ _ on_paid (expenses d) c) as [Hh Ht].
    rewrite Hh. eapply Forall_impl; [|exact Ht].
    intros x Hx. simpl. now rewrite Hx.
  - rewrite map_map. erewrite map_ext; [exact Hnd|].
    intros c. simpl.
    now destruct (join_group_key _ _ on_paid (expenses d) c) as [-> _].
Qed.

Lemma on_paid_rows (c : Category.t) (d : db) :
  filter (on_paid c) (expenses d) = paid_expenses (Category.id c) d.
Proof.
  unfold paid_expenses. apply filter_ext. intros e.
  unfold on_paid, is_paid. now rewrite Z.eqb_sym.
Qed.

Lemma fold_Qplus_total (xs : list Q) (s : Q) :
  fold_left Qplus xs s == s + total xs.
Proof.
  revert s. induction xs as [|x xs IH]; intros s; simpl.
  - ring.
  - rewrite IH. ring.
Qed.

Lemma py_sum_total (xs : list Q) : py_sum xs == total xs.
Proof.
  unfold py_sum. rewrite fold_Qplus_total. ring.
Qed.

Lemma sum_some (xs : list Q) (s : Q) :
  fold_left Sql.sum_step (map Some xs) (Some s) = Some (fold_left Qplus xs s).
Proof.
  revert s. induction xs as [|x xs IH]; intros s; simpl; [reflexivity|].
  apply IH.
Qed.

(** [COALESCE(SUM(e.amount), 0)] over the group of a category. *)
Lemma group_total (c : Category.t) (d : db) :
  Sql.coalesce
    (Sql.sum (map e_amount (Sql.group_rows (join_group on_paid (expenses d) c))))
    0 == total_paid (Category.id c) d.
Proof.
  unfold total_paid. rewrite <- on_paid_rows. unfold join_group.
  destruct (filter (on_paid c) (expenses d)) as [|e es]; simpl.
  - reflexivity.
  - unfold Sql.sum, Sql.group_rows. simpl.
    rewrite map_map. unfold e_amount. simpl.
    rewrite <- (map_map Expense.amount Some), sum_some. simpl.
    apply fold_Qplus_total.
Qed.

Lemma group_total_none (c : Category.t) (d : db) :
  paid_expenses (Category.id c) d = [] ->
  Sql.coalesce
    (Sql.sum (map e_amount (Sql.group_rows (join_group on_paid (expenses d) c))))
    0 = 0.
Proof.
  rewrite <- on_paid_rows. unfold join_group. now intros ->.
Qed.

(** [COUNT(e.id)] over the group of a category. *)
Lemma group_count (c : Category.t) (d : db) :
  Sql.count (map e_id (Sql.group_rows (join_group on_paid (expenses d) c))) =
  count_paid (Category.id c) d.
Proof.
  unfold count_paid. rewrite <- on_paid_rows. unfold join_group, Sql.count.
  destruct (filter (on_paid c) (expenses d)) as [|e es]; simpl; [reflexivity|].
  f_equal. f_equal. rewrite map_map. unfold e_id. simpl.
  induction es as [|x es IH]; simpl; [reflexivity|]. now rewrite IH.
Qed.

(* ================================================================== *)
(** * list_categories *)

Lemma sample_db_keys : primary_keys sample_db.
Proof.
  split; simpl; repeat constructor; simpl; intuition discriminate.
Qed.

Lemma select_categories_rows (d : db) :
  NoDup (map Category.id (categories d)) ->
  select_categories d =
  Sql.order_by_desc String.leb (fun r => Category.created_at (fst r))
    (map (fun c =>
            (c, Sql.coalesce
                  (Sql.sum (map e_amount
                     (Sql.group_rows (join_group on_paid (expenses d) c))))
                  0))
         (categories d)).
Proof.
  intros Hnd. unfold select_categories.
  rewrite (categories_by_id_rows d Hnd), map_map. f_equal.
  apply map_ext. intros c.
  now destruct (join_group_key _ _ on_paid (expenses d) c) as [-> _].
Qed.

(** X14. In exact arithmetic, on a database whose ids are primary keys,
    [list_categories] dumps one object per category row (all of them,
    none twice) with the keys id, name, description, budget_limit,
    created_at and total_spent, most recently created first; the
    [total_spent] of each is the sum of [amount] over the paid expenses
    of that category, and is 0 when the category has no paid expense. *)
Theorem list_categories_spec (d : db) :
  primary_keys d ->
  exists rows : list (Category.t * Q),
    list_categories d =
      (Dumps (JList (map (fun r =>
         JDict [("id", JInt (Category.id (fst r)));
                ("name", JStr (Category.name (fst r)));
                ("description",
                 match Category.description (fst r) with
                 | Some s => JStr s
                 | None => JNull
                 end);
                ("budget_limit",
                 match Category.budget_limit (fst r) with
                 | Some b => JNum b
                 | None => JNull
                 end);
                ("created_at", JStr (Category.created_at (fst r)));
                ("total_spent", JNum (snd r))]%string) rows)), d) /\
    Permutation (map fst rows) (categories d) /\
    StronglySorted
      (fun a b => String.leb (Category.created_at (fst b))
                             (Category.created_at (fst a)) = true) rows /\
    Forall (fun r =>
              snd r == total_paid (Category.id (fst r)) d /\
              (paid_expenses (Category.id (fst r)) d = [] -> snd r = 0))
           rows.
Proof.
  intros [Hnd _]. exists (select_categories d).
  split; [reflexivity|].
  rewrite (select_categories_rows d Hnd).
  set (row := fun c : Category.t => (c, _)).
  pose proof (order_by_desc_perm _ _ String.leb
                (fun r : Category.t * Q => Category.created_at (fst r))
                (map row (categories d))) as Hperm.
  split; [|split].
  - apply Permutation_map with (f := fst) in Hperm.
    rewrite (map_map row fst) in Hperm. simpl in Hperm.
    now rewrite map_id in Hperm.
  - apply (order_by_desc_sorted _ _ String.leb
             (fun r : Category.t * Q => Category.created_at (fst r))
             String.leb_total string_leb_trans).
  - apply (Permutation_Forall (Permutation_sym Hperm)).
    apply Forall_forall. intros r Hr. apply in_map_iff in Hr.
    destruct Hr as [c [<- _]]. unfold row. simpl. split.
    + apply group_total.
    + apply group_total_none.
Qed.

(** X14, witness: the theorem at [sample_db]. *)
Lemma list_categories_spec_witness :
  primary_keys sample_db /\
  exists rows : list (Category.t * Q),
    list_categories sample_db =
      (Dumps (JList (map (fun r =>
         JDict [("id", JInt (Category.id (fst r)));
                ("name", JStr (Category.name (fst r)));
                ("description",
                 match Category.description (fst r) with
                 | Some s => JStr s
                 | None => JNull
                 end);
                ("budget_limit",
                 match Category.budget_limit (fst r) with
                 | Some b => JNum b
                 | None => JNull
                 end);
                ("created_at", JStr (Category.created_at (fst r)));
                ("total_spent", JNum (snd r))]%string) rows)),
       sample_db) /\
    Permutation (map fst rows) (categories sample_db) /\
    StronglySorted
      (fun a b => String.leb (Category.created_at (fst b))
                             (Category.created_at (fst a)) = true) rows /\
    Forall (fun r =>
              snd r == total_paid (Category.id (fst r)) sample_db /\
              (paid_expenses (Category.id (fst r)) sample_db = [] ->
               snd r = 0))
           rows.
Proof.
  split.
  - exact sample_db_keys.
  - exact (list_categories_spec sample_db sample_db_keys).
Defined.

(* ================================================================== *)
(** * get_spending_summary *)

Lemma py_or_zero_eq (x : Q) : py_or_zero x == x.
Proof.
  unfold py_or_zero. destruct (Qeq_bool x 0) eqn:E; [|reflexivity].
  apply Qeq_bool_iff in E. now rewrite E.
Qed.

Lemma total_perm (xs ys : list Q) : Permutation xs ys -> total xs == total ys.
Proof.
  induction 1 as [|x xs ys _ IH|x y xs|xs ys zs _ IH1 _ IH2]; simpl.
  - reflexivity.
  - now rewrite IH.
  - ring.
  - now rewrite IH1.
Qed.

Lemma total_map_ext (A : Type) (f g : A -> Q) (l : list A) :
  (forall a, f a == g a) -> total (map f l) == total (map g l).
Proof.
  intros H. induction l as [|a l IH]; simpl; [reflexivity|].
  now rewrite IH, H.
Qed.

Lemma total_map_plus (A : Type) (f g : A -> Q) (l : list A) :
  total (map (fun a => f a + g a) l) == total (map f l) + total (map g l).
Proof.
  induction l as [|a l IH]; simpl; [ring|]. rewrite IH. ring.
Qed.

Lemma StronglySorted_map (A B : Type) (R : B -> B -> Prop) (f : A -> B)
    (l : list A) :
  StronglySorted (fun a b => R (f a) (f b)) l -> StronglySorted R (map f l).
Proof.
  induction 1 as [|a l _ IH Ha]; simpl; constructor; [exact IH|].
  apply Forall_forall. intros b Hb. apply in_map_iff in Hb.
  destruct Hb as [x [<- Hx]]. rewrite Forall_forall in Ha. now apply Ha.
Qed.

Lemma StronglySorted_impl (A : Type) (R S : A -> A -> Prop) (l : list A) :
  (forall a b, R a b -> S a b) -> StronglySorted R l -> StronglySorted S l.
Proof.
  intros HRS. induction 1 as [|a l _ IH Ha]; constructor; [exact IH|].
  eapply Forall_impl; [|exact Ha]. intros b. apply HRS.
Qed.

Lemma select_summary_rows (d : db) :
  NoDup (map Category.id (categories d)) ->
  select_summary d =
  map (summary_row d)
      (Sql.order_by_desc Qle_bool
         (fun c => Summary.total_spent (summary_row d c)) (categories d)).
Proof.
  intros Hnd. unfold select_summary.
  rewrite (categories_by_id_rows d Hnd), map_map.
  rewrite <- order_by_desc_map. f_equal.
  apply map_ext. intros c. unfold summary_row.
  now destruct (join_group_key _ _ on_paid (expenses d) c) as [-> _].
Qed.

(** The loop appends one entry per row and adds up their [total_spent]. *)
Lemma summary_loop (rows acc : list Summary.t) (t : Q) :
  fold_left summary_step rows (acc, t) =
  (acc ++ map summary_entry rows,
   fold_left Qplus (map (fun r => Summary.total_spent (summary_entry r)) rows) t).
Proof.
  revert acc t. induction rows as [|r rows IH]; intros acc t; simpl.
  - now rewrite app_nil_r.
  - rewrite IH, <- app_assoc. reflexivity.
Qed.

Lemma spending_summary_eq (d : db) :
  spending_summary d =
  (map summary_entry (select_summary d),
   py_sum (map Summary.total_spent (map summary_entry (select_summary d)))).
Proof.
  unfold spending_summary. rewrite summary_loop, map_map. reflexivity.
Qed.

Lemma get_spending_summary_eq (d : db) :
  get_spending_summary d =
  (summary_reply (fst (spending_summary d)) (snd (spending_summary d)), d).
Proof.
  unfold get_spending_summary. now destruct (spending_summary d).
Qed.

(** What an entry of [by_category] says about the category it is for. *)
Lemma summary_entry_of_category (d : db) (c : Category.t) :
  let s := summary_entry (summary_row d c) in
  Summary.category s = Category.name c /\
  Summary.total_spent s == total_paid (Category.id c) d /\
  Summary.expense_count s = count_paid (Category.id c) d /\
  Summary.budget s = Category.budget_limit c /\
  (paid_expenses (Category.id c) d = [] ->
   Summary.total_spent s = 0 /\ Summary.expense_count s = 0%Z).
Proof.
  unfold summary_entry, summary_row.
  cbn [Summary.category Summary.total_spent Summary.expense_count
       Summary.budget].
  split; [reflexivity|]. split; [|split; [|split; [reflexivity|]]].
  - rewrite py_or_zero_eq. apply group_total.
  - apply group_count.
  - intros Hnone. split.
    + now rewrite (group_total_none c d Hnone).
    + rewrite group_count. unfold count_paid. now rewrite Hnone.
Qed.

(** X13. In exact arithmetic, on a database whose ids are primary keys,
    [get_spending_summary] dumps a dict with [total_spending] and one
    [by_category] entry per category row, with the keys category,
    total_spent, expense_count and budget; the entry carries the
    category's name and [budget_limit], the sum of [amount] over its paid
    expenses and the number of those; a category without paid expenses is
    present with total 0 and count 0; entries are in descending order of
    [total_spent]. *)
Theorem get_spending_summary_spec (d : db) :
  primary_keys d ->
  exists (cs : list Category.t) (summary : list Summary.t) (total_spending : Q),
    get_spending_summary d =
      (Dumps (JDict
         [("total_spending", JNum total_spending);
          ("by_category",
           JList (map (fun s =>
              JDict [("category", JStr (Summary.category s));
                     ("total_spent", JNum (Summary.total_spent s));
                     ("expense_count", JInt (Summary.expense_count s));
                     ("budget",
                      match Summary.budget s with
                      | Some b => JNum b
                      | None => JNull
                      end)]%string) summary))]%string), d) /\
    Permutation cs (categories d) /\
    Forall2 (fun c s =>
               Summary.category s = Category.name c /\
               Summary.total_spent s == total_paid (Category.id c) d /\
               Summary.expense_count s = count_paid (Category.id c) d /\
               Summary.budget s = Category.budget_limit c /\
               (paid_expenses (Category.id c) d = [] ->
                Summary.total_spent s = 0 /\ Summary.expense_count s = 0%Z))
            cs summary /\
    StronglySorted
      (fun a b => Summary.total_spent b <= Summary.total_spent a) summary.
Proof.
  intros [Hnd _].
  set (key := fun c => Summary.total_spent (summary_row d c)).
  pose proof (order_by_desc_sorted _ _ Qle_bool key Qle_bool_total Qle_bool_trans
                (categories d)) as Hsorted.
  pose proof (order_by_desc_perm _ _ Qle_bool key (categories d)) as Hperm.
  exists (Sql.order_by_desc Qle_bool key (categories d)).
  exists (fst (spending_summary d)), (snd (spending_summary d)).
  split; [apply get_spending_summary_eq|].
  split; [exact Hperm|].
  rewrite spending_summary_eq, (select_summary_rows d Hnd).
  cbn [fst snd]. fold key. rewrite map_map.
  revert Hsorted. clear Hperm.
  generalize (Sql.order_by_desc Qle_bool key (categories d)).
  intros cs Hsorted. split.
  - clear Hsorted. induction cs as [|c cs IH]; cbn [map]; constructor;
      [|exact IH].
    apply summary_entry_of_category.
  - apply StronglySorted_map.
    eapply StronglySorted_impl; [|exact Hsorted].
    intros a b Hab. unfold Sql.desc, key in Hab. apply Qle_bool_iff in Hab.
    unfold summary_entry. cbn [Summary.total_spent].
    now rewrite !py_or_zero_eq.
Qed.

(** X13, witness: the theorem at [sample_db]. *)
Lemma get_spending_summary_spec_witness :
  primary_keys sample_db /\
  exists (cs : list Category.t) (summary : list Summary.t) (total_spending : Q),
    get_spending_summary sample_db =
      (Dumps (JDict
         [("total_spending", JNum total_spending);
          ("by_category",
           JList (map (fun s =>
              JDict [("category", JStr (Summary.category s));
                     ("total_spent", JNum (Summary.total_spent s));
                     ("expense_count", JInt (Summary.expense_count s));
                     ("budget",
                      match Summary.budget s with
                      | Some b => JNum b
                      | None => JNull
                      end)]%string) summary))]%string), sample_db) /\
    Permutation cs (categories sample_db) /\
    Forall2 (fun c s =>
               Summary.category s = Category.name c /\
               Summary.total_spent s == total_paid (Category.id c) sample_db /\
               Summary.expense_count s = count_paid (Category.id c) sample_db /\
               Summary.budget s = Category.budget_limit c /\
               (paid_expenses (Category.id c) sample_db = [] ->
                Summary.total_spent s = 0 /\ Summary.expense_count s = 0%Z))
            cs summary /\
    StronglySorted
      (fun a b => Summary.total_spent b <= Summary.total_spent a) summary.
Proof.
  split.
  - exact sample_db_keys.
  - exact (get_spending_summary_spec sample_db sample_db_keys).
Defined.

(** Each paid expense of an existing category is counted once. *)
Lemma total_one_expense (cats : list Category.t) (e : Expense.t) :
  NoDup (map Category.id cats) ->
  total (map (fun c => if (Expense.category_id e =? Category.id c)%Z && is_paid e
                       then Expense.amount e else 0) cats) ==
  if is_paid e &&
     existsb (fun c => (Category.id c =? Expense.category_id e)%Z) cats
  then Expense.amount e else 0.
Proof.
  induction cats as [|c cats IH]; simpl; intros Hnd.
  - rewrite andb_false_r. reflexivity.
  - inversion Hnd as [|x xs Hnotin Hnd']; subst.
    rewrite (IH Hnd'). rewrite (Z.eqb_sym (Category.id c)).
    destruct (Z.eqb_spec (Expense.category_id e) (Category.id c)) as [E|_];
      simpl.
    + assert (Hno : existsb (fun c0 => (Category.id c0 =? Expense.category_id e)%Z)
                      cats = false).
      { destruct (existsb _ cats) eqn:Ex; [|reflexivity].
        apply existsb_exists in Ex. destruct Ex as [c' [Hin Hc']].
        apply Z.eqb_eq in Hc'. exfalso. apply Hnotin. rewrite <- E, <- Hc'.
        now apply in_map. }
      rewrite Hno, andb_false_r, andb_true_r.
      destruct (is_paid e); ring.
    + ring.
Qed.

(** Adding up the per-category totals counts exactly the paid expenses
    whose category exists. *)
Lemma total_by_category (d : db) :
  NoDup (map Category.id (categories d)) ->
  total (map (fun c => total_paid (Category.id c) d) (categories d)) ==
  total (map Expense.amount (paid_in_category d)).
Proof.
  destruct d as [cats es]. unfold total_paid, paid_expenses, paid_in_category,
    has_category. simpl. intros Hnd.
  induction es as [|e es IH]; simpl.
  - induction cats as [|c cats IHc]; simpl; [reflexivity|].
    inversion Hnd; subst. rewrite IHc by assumption. ring.
  - rewrite (total_map_ext _
      (fun c => total (map Expense.amount
         (if (Expense.category_id e =? Category.id c)%Z && is_paid e
          then e :: filter (fun e0 => (Expense.category_id e0 =? Category.id c)%Z
                                      && is_paid e0) es
          else filter (fun e0 => (Expense.category_id e0 =? Category.id c)%Z
                                 && is_paid e0) es)))
      (fun c => (if (Expense.category_id e =? Category.id c)%Z && is_paid e
                 then Expense.amount e else 0) +
                total (map Expense.amount
                  (filter (fun e0 => (Expense.category_id e0 =? Category.id c)%Z
                                     && is_paid e0) es)))).
    + rewrite total_map_plus, IH, (total_one_expense cats e Hnd).
      destruct (is_paid e &&
                existsb (fun c => (Category.id c =? Expense.category_id e)%Z) cats);
        simpl; ring.
    + intros c.
      destruct ((Expense.category_id e =? Category.id c)%Z && is_paid e);
        simpl; ring.
Qed.

(** C1 (as amended). On a database whose ids are primary keys, the
    [total_spending] that [get_spending_summary] reports is the sum, in
    list order, of the [total_spent] of the entries it reports, and it
    equals the sum of [amount] over the paid expenses whose [category_id]
    is the id of an existing category. *)
Theorem total_spending_spec (d : db) :
  primary_keys d ->
  exists (summary : list Summary.t) (total_spending : Q),
    get_spending_summary d = (summary_reply summary total_spending, d) /\
    total_spending = py_sum (map Summary.total_spent summary) /\
    total_spending == total (map Expense.amount (paid_in_category d)).
Proof.
  intros [Hnd _].
  exists (fst (spending_summary d)), (snd (spending_summary d)).
  split; [apply get_spending_summary_eq|].
  rewrite spending_summary_eq. cbn [fst snd]. split; [reflexivity|].
  rewrite py_sum_total, (select_summary_rows d Hnd), !map_map.
  rewrite <- (total_by_category d Hnd).
  rewrite (total_map_ext _ _ (fun c => total_paid (Category.id c) d)).
  - apply total_perm, Permutation_map, order_by_desc_perm.
  - intros c. apply (summary_entry_of_category d c).
Qed.

(** C1, witness: the theorem at [sample_db]. *)
Lemma total_spending_spec_witness :
  primary_keys sample_db /\
  exists (summary : list Summary.t) (total_spending : Q),
    get_spending_summary sample_db =
      (summary_reply summary total_spending, sample_db) /\
    total_spending = py_sum (map Summary.total_spent summary) /\
    total_spending == total (map Expense.amount (paid_in_category sample_db)).
Proof.
  split.
  - exact sample_db_keys.
  - exact (total_spending_spec sample_db sample_db_keys).
Defined.

(** C1 (as stated) fails: in [sample_db] the paid expenses add up to 896,
    but expense 3 has no category row and [total_spending] is 891. *)
Lemma total_spending_misses_orphans :
  primary_keys sample_db /\
  fst (get_spending_summary sample_db) =
    summary_reply [Summary.mk "Software" (Some 5000) 891 1;
                   Summary.mk "Marketing" (Some 10000) 0 0] 891 /\
  total (map Expense.amount (all_paid sample_db)) == 896 /\
  ~ 891 == total (map Expense.amount (all_paid sample_db)).
Proof.
  split; [exact sample_db_keys|].
  split; [reflexivity|].
  split; [reflexivity|].
  intros H. vm_compute in H. discriminate H.
Qed.

(* ================================================================== *)
(** * Row ids *)

Lemma fold_max_bounds (l : list Z) (a : Z) :
  (a <= fold_left Z.max l a)%Z /\
  (forall x, In x l -> (x <= fold_left Z.max l a)%Z).
Proof.
  revert a. induction l as [|y l IH]; intros a; simpl.
  - split; [lia|contradiction].
  - destruct (IH (Z.max a y)) as [Ha Hl]. split; [lia|].
    intros x [<-|Hx]; [lia|now apply Hl].
Qed.

Lemma next_rowid_fresh (ids : list Z) (x : Z) :
  In x ids -> (x < Sql.next_rowid ids)%Z.
Proof.
  unfold Sql.next_rowid. destruct ids as [|y rest]; [contradiction|].
  destruct (fold_max_bounds rest y) as [Hy Hrest].
  intros [<-|Hx]; [lia|]. specialize (Hrest x Hx). lia.
Qed.

(** A WHERE clause no row satisfies selects nothing; one every row
    satisfies selects the table. *)
Lemma where_no_row (Row : Type) (cond : Row -> bool) (rows : list Row) :
  Forall (fun r => cond r = false) rows -> filter cond rows = [].
Proof.
  induction 1 as [|r rows Hr _ IH]; simpl; [reflexivity|].
  now rewrite Hr.
Qed.

Lemma where_every_row (Row : Type) (cond : Row -> bool) (rows : list Row) :
  Forall (fun r => cond r = true) rows -> filter cond rows = rows.
Proof.
  induction 1 as [|r rows Hr _ IH]; simpl; [reflexivity|].
  now rewrite Hr, IH.
Qed.

Lemma expenses_with_id_absent (id : Z) (d : db) :
  ~ expense_exists id d -> expenses_with_id id d = [].
Proof.
  intros Habs. apply where_no_row, Forall_forall. intros e He.
  apply Z.eqb_neq. intros E. apply Habs. unfold expense_exists.
  rewrite <- E. now apply in_map.
Qed.

Lemma expenses_with_id_present (id : Z) (d : db) :
  expense_exists id d ->
  exists e rest, expenses_with_id id d = e :: rest /\ Expense.id e = id.
Proof.
  unfold expense_exists, expenses_with_id. intros Hin.
  apply in_map_iff in Hin. destruct Hin as [e [He Hin]].
  assert (Hf : In e (filter (fun e0 => (Expense.id e0 =? id)%Z) (expenses d))).
  { apply filter_In. split; [exact Hin|]. now apply Z.eqb_eq. }
  destruct (filter (fun e0 => (Expense.id e0 =? id)%Z) (expenses d))
    as [|e' rest] eqn:E; [contradiction|].
  exists e', rest. split; [reflexivity|].
  assert (Hin' : In e' (filter (fun e0 => (Expense.id e0 =? id)%Z) (expenses d))).
  { rewrite E. now left. }
  apply filter_In in Hin'. now apply Z.eqb_eq.
Qed.

(* ================================================================== *)
(** * Which calls bind *)

Lemma bindable_id (id : Z) : bindable [PInt id] = fits_int64 id.
Proof. simpl. apply andb_true_r. Qed.

Lemma bindable_create_expense (category_id : Z) (company_name : string)
    (amount : Q) (sales_email : string) (due_date : option string) :
  bindable [PInt category_id; PStr company_name; PNum amount;
            PStr sales_email; param_opt PStr due_date] =
  fits_int64 category_id.
Proof. destruct due_date; simpl; apply andb_true_r. Qed.

(** The UPDATE binds when [id] and the supplied [category_id] fit. *)
Lemma bindable_update (id : Z) (company_name : option string)
    (amount : option Q) (category_id : option Z)
    (sales_email due_date status : option string) :
  bindable (map param_of
              (build_updates company_name amount category_id sales_email
                             due_date status) ++ [PInt id]) =
  match category_id with
  | Some c => fits_int64 c
  | None => true
  end && fits_int64 id.
Proof.
  destruct company_name, amount, category_id, sales_email, due_date, status;
    simpl; rewrite ?andb_true_r; reflexivity.
Qed.

Lemma fits_2_63 : fits_int64 (2 ^ 63) = false.
Proof. reflexivity. Qed.

(* ================================================================== *)
(** * create_expense *)

(** C2. Whatever the arguments and the database, a row that
    [create_expense] inserts has [status = 'pending'].  When
    [category_id] fits an SQLite INTEGER the call appends one such row
    and leaves every other row as it was; the reply names the new row's
    id, and [get_expense] on that id (when it fits) returns the new row.
    Otherwise the call raises [OverflowError] and inserts nothing. *)
Theorem create_expense_pending (now company_name : string) (amount : Q)
    (category_id : Z) (sales_email : string) (due_date : option string)
    (d : db) :
  let r := create_expense now company_name amount category_id sales_email
                          due_date d in
  (fits_int64 category_id = true ->
   exists row : Expense.t,
     snd r = mkdb (categories d) (expenses d ++ [row]) /\
     Expense.status row = "pending"%string /\
     fst r = Text [Lit "Expense for "; FmtStr company_name; Lit " ($";
                   FmtNum amount; Lit ") created successfully with ID: ";
                   FmtInt (Expense.id row)] /\
     (fits_int64 (Expense.id row) = true ->
      get_expense (Expense.id row) (snd r) =
        (Dumps (expense_json row), snd r))) /\
  (fits_int64 category_id = false -> r = (Raise OverflowError, d)).
Proof.
  intros r. subst r. unfold create_expense.
  rewrite bindable_create_expense. split; intros Hfit; rewrite Hfit;
    [|reflexivity].
  cbn [fst snd].
  set (new_id := Sql.next_rowid (map Expense.id (expenses d))).
  set (row := Expense.mk new_id _ _ _ _ _ _ _ _).
  exists row. repeat split. intros Hid.
  unfold get_expense. rewrite bindable_id, Hid.
  unfold expenses_with_id. cbn [expenses Expense.id row].
  rewrite filter_app, where_no_row.
  - simpl. now rewrite Z.eqb_refl.
  - apply Forall_forall. intros e He. apply Z.eqb_neq.
    pose proof (next_rowid_fresh (map Expense.id (expenses d)) (Expense.id e)
                  (in_map _ _ _ He)).
    fold new_id in H. lia.
Qed.

(** C2, witness: in [sample_db], a call whose [category_id] fits and one
    whose [category_id] is 2^63. *)
Lemma create_expense_pending_witness :
  fits_int64 2 = true /\
  fits_int64 (2 ^ 63) = false /\
  (exists row : Expense.t,
     snd (create_expense "2024-12-05 09:00:00" "AdCo" 40 2
                         "ads@adco.example" None sample_db) =
       mkdb (categories sample_db) (expenses sample_db ++ [row]) /\
     Expense.status row = "pending"%string /\
     Expense.id row = 4%Z) /\
  create_expense "2024-12-05 09:00:00" "AdCo" 40 (2 ^ 63)
                 "ads@adco.example" None sample_db =
    (Raise OverflowError, sample_db).
Proof.
  assert (Hfit : fits_int64 2 = true) by reflexivity.
  split; [exact Hfit|]. split; [exact fits_2_63|]. split.
  - destruct (proj1 (create_expense_pending "2024-12-05 09:00:00" "AdCo" 40 2
                       "ads@adco.example" None sample_db) Hfit)
      as (row & Hdb & Hstatus & Hreply & _).
    exists row. split; [exact Hdb|]. split; [exact Hstatus|].
    cbn in Hreply. now injection Hreply as <-.
  - exact (proj2 (create_expense_pending "2024-12-05 09:00:00" "AdCo" 40
                    (2 ^ 63) "ads@adco.example" None sample_db) fits_2_63).
Defined.

(* ================================================================== *)
(** * Ids that match no row *)

Lemma db_eta (d : db) : mkdb (categories d) (expenses d) = d.
Proof. now destruct d. Qed.

Lemma update_expense_absent (id : Z) (company_name : option string)
    (amount : option Q) (category_id : option Z)
    (sales_email due_date status : option string) (d : db) :
  fits_int64 id = true ->
  ~ expense_exists id d ->
  update_expense id company_name amount category_id sales_email due_date
                 status d = (not_found id, d).
Proof.
  intros Hfit Habs. unfold update_expense. rewrite bindable_id, Hfit.
  now rewrite (expenses_with_id_absent id d Habs).
Qed.

Lemma get_expense_absent (id : Z) (d : db) :
  fits_int64 id = true -> ~ expense_exists id d ->
  get_expense id d = (not_found id, d).
Proof.
  intros Hfit Habs. unfold get_expense. rewrite bindable_id, Hfit.
  now rewrite (expenses_with_id_absent id d Habs).
Qed.

Lemma delete_expense_absent (id : Z) (d : db) :
  fits_int64 id = true -> ~ expense_exists id d ->
  delete_expense id d = (not_found id, d).
Proof.
  intros Hfit Habs. unfold delete_expense. rewrite bindable_id, Hfit.
  rewrite (expenses_with_id_absent id d Habs). cbn [length Nat.eqb].
  rewrite where_every_row; [now rewrite db_eta|].
  apply Forall_forall. intros e He. apply negb_true_iff, Z.eqb_neq.
  intros E. apply Habs.
  unfold expense_exists. rewrite <- E. now apply in_map.
Qed.

(** C7 (as amended). When [id] fits an SQLite INTEGER and is the id of no
    expense row, [get_expense], [update_expense] (with any optional
    arguments) and [delete_expense] each return the message
    "Error: Expense with ID <id> not found" and the database they leave
    is the one they found. *)
Theorem not_found_replies (id : Z) (d : db) :
  fits_int64 id = true ->
  ~ expense_exists id d ->
  get_expense id d = (not_found id, d) /\
  (forall company_name amount category_id sales_email due_date status,
     update_expense id company_name amount category_id sales_email due_date
                    status d = (not_found id, d)) /\
  delete_expense id d = (not_found id, d).
Proof.
  intros Hfit Habs. split; [|split].
  - now apply get_expense_absent.
  - intros. now apply update_expense_absent.
  - unfold delete_expense. rewrite bindable_id, Hfit.
    rewrite (expenses_with_id_absent id d Habs). simpl.
    rewrite where_every_row; [now rewrite db_eta|].
    apply Forall_forall. intros e He. apply negb_true_iff, Z.eqb_neq.
    intros E. apply Habs.
    unfold expense_exists. rewrite <- E. now apply in_map.
Qed.

(** C7, witness: no expense of [sample_db] has id 42. *)
Lemma not_found_replies_witness :
  fits_int64 42 = true /\
  ~ expense_exists 42 sample_db /\
  get_expense 42 sample_db = (not_found 42, sample_db) /\
  (forall company_name amount category_id sales_email due_date status,
     update_expense 42 company_name amount category_id sales_email due_date
                    status sample_db = (not_found 42, sample_db)) /\
  delete_expense 42 sample_db = (not_found 42, sample_db).
Proof.
  assert (Habs : ~ expense_exists 42 sample_db).
  { unfold expense_exists. simpl. intuition discriminate. }
  split; [reflexivity|]. split.
  - exact Habs.
  - exact (not_found_replies 42 sample_db eq_refl Habs).
Defined.

(** C7 (as stated) fails for an id outside the signed 64-bit range: no
    expense of [sample_db] has id 2^63, yet the three tools raise
    [OverflowError] instead of replying not-found. *)
Lemma absent_id_out_of_range_raises :
  ~ expense_exists (2 ^ 63) sample_db /\
  get_expense (2 ^ 63) sample_db = (Raise OverflowError, sample_db) /\
  update_expense (2 ^ 63) None None None None None (Some "paid"%string)
                 sample_db = (Raise OverflowError, sample_db) /\
  delete_expense (2 ^ 63) sample_db = (Raise OverflowError, sample_db) /\
  get_expense (2 ^ 63) sample_db <> (not_found (2 ^ 63), sample_db).
Proof.
  split.
  - unfold expense_exists. simpl. intuition discriminate.
  - repeat split; try reflexivity. intros H. discriminate H.
Qed.

(* ================================================================== *)
(** * update_expense: the two early returns *)

(** C8 (as amended). For an [id] that fits an SQLite INTEGER:
    [update_expense] on an id that matches no row replies not-found; on
    an id that matches a row, with no optional argument supplied, it
    replies "No fields to update" and leaves the database as it was. *)
Theorem update_expense_early_returns (id : Z) (d : db) :
  fits_int64 id = true ->
  (~ expense_exists id d ->
   forall company_name amount category_id sales_email due_date status,
     update_expense id company_name amount category_id sales_email due_date
                    status d = (not_found id, d)) /\
  (expense_exists id d ->
   forall company_name amount category_id sales_email due_date status,
     nothing_supplied company_name amount category_id sales_email due_date
                      status ->
     update_expense id company_name amount category_id sales_email due_date
                    status d = (Text [Lit "No fields to update"], d)).
Proof.
  intros Hfit. split.
  - intros Habs ? ? ? ? ? ?. now apply update_expense_absent.
  - intros Hex ? ? ? ? ? ? (-> & -> & -> & -> & -> & ->).
    destruct (expenses_with_id_present id d Hex) as (e & rest & Hrows & _).
    unfold update_expense. rewrite bindable_id, Hfit. now rewrite Hrows.
Qed.

(** C8, witness: id 42 is absent from [sample_db] and id 2 is present. *)
Lemma update_expense_early_returns_witness :
  fits_int64 42 = true /\
  fits_int64 2 = true /\
  ~ expense_exists 42 sample_db /\
  expense_exists 2 sample_db /\
  nothing_supplied None None None None None None /\
  update_expense 42 None None None None None (Some "paid"%string) sample_db =
    (not_found 42, sample_db) /\
  update_expense 2 None None None None None None sample_db =
    (Text [Lit "No fields to update"], sample_db).
Proof.
  assert (Habs : ~ expense_exists 42 sample_db).
  { unfold expense_exists. simpl. intuition discriminate. }
  assert (Hex : expense_exists 2 sample_db).
  { unfold expense_exists. simpl. intuition. }
  assert (Hno : nothing_supplied None None None None None None).
  { repeat split. }
  split; [reflexivity|]. split; [reflexivity|].
  split; [exact Habs|]. split; [exact Hex|]. split; [exact Hno|]. split.
  - exact (proj1 (update_expense_early_returns 42 sample_db eq_refl) Habs
             None None None None None (Some "paid"%string)).
  - exact (proj2 (update_expense_early_returns 2 sample_db eq_refl) Hex
             None None None None None None Hno).
Defined.

(** C8 (as stated) fails for an id outside the signed 64-bit range: id
    2^63 matches no row of [sample_db], yet [update_expense] raises
    [OverflowError] where the claim has it signal not-found. *)
Lemma update_on_huge_id_raises :
  ~ expense_exists (2 ^ 63) sample_db /\
  update_expense (2 ^ 63) None None None None None None sample_db =
    (Raise OverflowError, sample_db) /\
  update_expense (2 ^ 63) None None None None None None sample_db <>
    (not_found (2 ^ 63), sample_db).
Proof.
  split.
  - unfold expense_exists. simpl. intuition discriminate.
  - split; [reflexivity|]. intros H. discriminate H.
Qed.

(* ================================================================== *)
(** * list_expenses *)

(** The conditions the query is built from say what [matches] says. *)
Lemma where_matches (category_id : option Z) (status : option string) :
  status <> Some ""%string ->
  forall e,
    where_all (fst (expenses_query category_id status)) e =
    matches category_id status e.
Proof.
  intros Hs e. unfold matches, where_all, expenses_query.
  destruct status as [s|].
  - destruct (String.eqb_spec s "") as [->|_]; [congruence|].
    destruct category_id as [c|]; simpl;
      now rewrite !andb_true_r.
  - destruct category_id as [c|]; simpl; now rewrite ?andb_true_r.
Qed.

(** The parameters of the query bind when the supplied [category_id]
    fits. *)
Lemma expenses_query_bindable (category_id : option Z)
    (status : option string) :
  bindable (snd (expenses_query category_id status)) =
  match category_id with
  | Some c => fits_int64 c
  | None => true
  end.
Proof.
  unfold expenses_query.
  destruct category_id as [c|], status as [s|]; simpl;
    try destruct (s =? "")%string; simpl; rewrite ?andb_true_r; reflexivity.
Qed.

Lemma select_expenses_eq (category_id : option Z) (status : option string)
    (d : db) :
  select_expenses category_id status d =
  if bindable (snd (expenses_query category_id status)) then
    inr (Sql.order_by_desc String.leb Expense.created_at
           (filter (where_all (fst (expenses_query category_id status)))
                   (expenses d)))
  else inl OverflowError.
Proof.
  unfold select_expenses.
  now destruct (expenses_query category_id status).
Qed.

(** The rows fetched when the query binds. *)
Lemma select_expenses_rows (category_id : option Z) (status : option string)
    (d : db) :
  status <> Some ""%string ->
  fits_if_supplied category_id ->
  select_expenses category_id status d =
  inr (Sql.order_by_desc String.leb Expense.created_at
         (filter (matches category_id status) (expenses d))).
Proof.
  intros Hs Hfit. rewrite select_expenses_eq, expenses_query_bindable.
  assert (Hb : match category_id with
               | Some c => fits_int64 c
               | None => true
               end = true).
  { destruct category_id as [c|]; [now apply Hfit|reflexivity]. }
  rewrite Hb. f_equal. f_equal. apply filter_ext.
  now apply where_matches.
Qed.

(** C10. An empty [status] is falsy: the status condition is not added.
    The reply is the one of a call without [status]; when the supplied
    [category_id] fits an SQLite INTEGER it lists every row that passes
    the [category_id] filter, whatever its status. *)
Theorem list_expenses_empty_status (category_id : option Z) (d : db) :
  list_expenses category_id (Some ""%string) d =
    list_expenses category_id None d /\
  (fits_if_supplied category_id ->
   exists rows : list Expense.t,
     list_expenses category_id (Some ""%string) d =
       (Dumps (JList (map expense_json rows)), d) /\
     Permutation rows (filter (matches category_id None) (expenses d))).
Proof.
  assert (Hsame : list_expenses category_id (Some ""%string) d =
                  list_expenses category_id None d).
  { unfold list_expenses. rewrite !select_expenses_eq.
    now destruct category_id. }
  split; [exact Hsame|]. intros Hfit.
  assert (Hnone : @None string <> Some ""%string) by discriminate.
  exists (Sql.order_by_desc String.leb Expense.created_at
            (filter (matches category_id None) (expenses d))).
  split; [|apply order_by_desc_perm].
  rewrite Hsame. unfold list_expenses.
  now rewrite (select_expenses_rows category_id None d Hnone Hfit).
Qed.

(** C10, witness: category 1 of [sample_db] with an empty status. *)
Lemma list_expenses_empty_status_witness :
  fits_if_supplied (Some 1%Z) /\
  list_expenses (Some 1%Z) (Some ""%string) sample_db =
    list_expenses (Some 1%Z) None sample_db /\
  exists rows : list Expense.t,
    list_expenses (Some 1%Z) (Some ""%string) sample_db =
      (Dumps (JList (map expense_json rows)), sample_db) /\
    Permutation rows (filter (matches (Some 1%Z) None) (expenses sample_db)).
Proof.
  assert (Hfit : fits_if_supplied (Some 1%Z)).
  { intros c Hc. injection Hc as <-. reflexivity. }
  split; [exact Hfit|]. split.
  - exact (proj1 (list_expenses_empty_status (Some 1%Z) sample_db)).
  - exact (proj2 (list_expenses_empty_status (Some 1%Z) sample_db) Hfit).
Defined.




(* ================================================================== *)
(** * update_expense: the fields it writes *)

(** Running the assignments that were appended is replacing exactly the
    supplied fields. *)
Lemma assign_build_updates (company_name : option string) (amount : option Q)
    (category_id : option Z) (sales_email due_date status : option string)
    (e : Expense.t) :
  fold_left assign
    (build_updates company_name amount category_id sales_email due_date status)
    e = with_fields company_name amount category_id sales_email due_date
                    status e.
Proof.
  destruct e.
  destruct company_name, amount, category_id, sales_email, due_date, status;
    reflexivity.
Qed.

Lemma build_updates_nil (company_name : option string) (amount : option Q)
    (category_id : option Z) (sales_email due_date status : option string) :
  build_updates company_name amount category_id sales_email due_date status = []
  -> nothing_supplied company_name amount category_id sales_email due_date
                      status.
Proof.
  unfold nothing_supplied.
  destruct company_name, amount, category_id, sales_email, due_date, status;
    simpl; intros H; try discriminate H; repeat split.
Qed.


(** The database a successful [update_expense] leaves. *)
Lemma update_expense_present (id : Z) (company_name : option string)
    (amount : option Q) (category_id : option Z)
    (sales_email due_date status : option string) (d : db) :
  fits_int64 id = true ->
  fits_if_supplied category_id ->
  expense_exists id d ->
  ~ nothing_supplied company_name amount category_id sales_email due_date
                     status ->
  update_expense id company_name amount category_id sales_email due_date
                 status d =
  (Text [Lit "Expense "; FmtInt id; Lit " updated successfully"],
   mkdb (categories d)
        (map (fun e => if (Expense.id e =? id)%Z
                       then with_fields company_name amount category_id
                                        sales_email due_date status e
                       else e)
             (expenses d))).
Proof.
  intros Hfit Hcat Hex Hsome.
  destruct (expenses_with_id_present id d Hex) as (e & rest & Hrows & _).
  unfold update_expense. rewrite bindable_id, Hfit, Hrows.
  pose proof (bindable_update id company_name amount category_id sales_email
                due_date status) as Hbind.
  destruct (build_updates company_name amount category_id sales_email due_date
                          status) as [|a ups] eqn:Hb.
  - exfalso. apply Hsome. now apply build_updates_nil.
  - rewrite Hbind, Hfit, andb_true_r. cbn [map fetchone hd_error].
    assert (Hc : match category_id with
                 | Some c => fits_int64 c
                 | None => true
                 end = true).
    { destruct category_id as [c|]; [now apply Hcat|reflexivity]. }
    rewrite Hc. f_equal. f_equal. unfold sql_update. apply map_ext. intros x.
    now rewrite <- Hb, assign_build_updates.
Qed.




Lemma expenses_with_id_map (id : Z) (f : Expense.t -> Expense.t)
    (rows : list Expense.t) :
  (forall e, Expense.id (f e) = Expense.id e) ->
  filter (fun e => (Expense.id e =? id)%Z)
         (map (fun e => if (Expense.id e =? id)%Z then f e else e) rows) =
  map f (filter (fun e => (Expense.id e =? id)%Z) rows).
Proof.
  intros Hid. induction rows as [|e rows IH]; simpl; [reflexivity|].
  destruct (Expense.id e =? id)%Z eqn:E; simpl.
  - rewrite Hid, E. simpl. now rewrite IH.
  - now rewrite E.
Qed.




(* ================================================================== *)
(** * Invariants of the tool calls *)

Lemma assign_id (e : Expense.t) (a : assignment) :
  Expense.id (assign e a) = Expense.id e.
Proof. now destruct e, a. Qed.

Lemma fold_assign_id (ups : list assignment) (e : Expense.t) :
  Expense.id (fold_left assign ups e) = Expense.id e.
Proof.
  revert e. induction ups as [|a ups IH]; intros e; simpl; [reflexivity|].
  now rewrite IH, assign_id.
Qed.

Lemma sql_update_ids (ups : list assignment) (id : Z) (rows : list Expense.t) :
  map Expense.id (sql_update ups id rows) = map Expense.id rows.
Proof.
  unfold sql_update. rewrite map_map. apply map_ext. intros e.
  destruct (Expense.id e =? id)%Z; [apply fold_assign_id|reflexivity].
Qed.

(** Deleting rows keeps the remaining ids distinct. *)
Lemma delete_keeps_key (id : Z) (rows : list Expense.t) :
  NoDup (map Expense.id rows) ->
  NoDup (map Expense.id
           (filter (fun e => negb (Expense.id e =? id)%Z) rows)).
Proof.
  induction rows as [|e rows IH]; simpl; intros Hkey; [constructor|].
  apply NoDup_cons_iff in Hkey. destruct Hkey as [Hfresh Hkey].
  destruct (Expense.id e =? id)%Z; simpl; [now apply IH|].
  apply NoDup_cons_iff. split; [|now apply IH].
  intros Hin. apply Hfresh. apply in_map_iff in Hin.
  destruct Hin as (e' & Hid & Hin). apply filter_In in Hin.
  rewrite <- Hid. now apply in_map.
Qed.

Lemma NoDup_next_rowid (ids : list Z) :
  NoDup ids -> NoDup (ids ++ [Sql.next_rowid ids]).
Proof.
  intros Hnd.
  apply (Permutation_NoDup (Permutation_cons_append ids (Sql.next_rowid ids))).
  constructor; [|exact Hnd].
  intros Hin. apply next_rowid_fresh in Hin. lia.
Qed.

Lemma update_expense_db (id : Z) (company_name : option string)
    (amount : option Q) (category_id : option Z)
    (sales_email due_date status : option string) (d : db) :
  snd (update_expense id company_name amount category_id sales_email due_date
                      status d) = d \/
  snd (update_expense id company_name amount category_id sales_email due_date
                      status d) =
  mkdb (categories d)
       (sql_update (build_updates company_name amount category_id sales_email
                                  due_date status) id (expenses d)).
Proof.
  unfold update_expense.
  destruct (bindable [PInt id]); [|now left].
  destruct (fetchone (map Expense.id (expenses_with_id id d))); [|now left].
  destruct (build_updates company_name amount category_id sales_email due_date
                          status) as [|a ups]; [now left|].
  destruct (bindable (map param_of (a :: ups) ++ [PInt id]));
    [now right|now left].
Qed.

(** The reading tools and a raising call leave the database alone. *)
Lemma list_expenses_db (category_id : option Z) (status : option string)
    (d : db) :
  snd (list_expenses category_id status d) = d.
Proof.
  unfold list_expenses.
  now destruct (select_expenses category_id status d).
Qed.

Lemma get_expense_db (id : Z) (d : db) : snd (get_expense id d) = d.
Proof.
  unfold get_expense. destruct (bindable [PInt id]); [|reflexivity].
  now destruct (fetchone (expenses_with_id id d)).
Qed.

Lemma create_expense_db (now company_name : string) (amount : Q)
    (category_id : Z) (sales_email : string) (due_date : option string)
    (d : db) :
  snd (create_expense now company_name amount category_id sales_email
                      due_date d) = d \/
  snd (create_expense now company_name amount category_id sales_email
                      due_date d) =
  mkdb (categories d)
       (expenses d ++
        [Expense.mk (Sql.next_rowid (map Expense.id (expenses d)))
                    category_id company_name amount sales_email due_date
                    "pending" None now]).
Proof.
  unfold create_expense.
  destruct (bindable _); [now right|now left].
Qed.

(** The table [delete_expense] leaves. *)
Lemma delete_expense_db (id : Z) (d : db) :
  snd (delete_expense id d) =
  if fits_int64 id then
    mkdb (categories d)
         (filter (fun e => negb (Expense.id e =? id)%Z) (expenses d))
  else d.
Proof.
  unfold delete_expense. rewrite bindable_id.
  destruct (fits_int64 id); [|reflexivity].
  now destruct (length (expenses_with_id id d) =? 0)%nat.
Qed.

(** Every tool keeps [id] a primary key of both tables. *)
Lemma dispatch_primary_keys (c : call) (d : db) :
  primary_keys d -> primary_keys (snd (dispatch c d)).
Proof.
  intros [Hc He]. destruct c; cbn [dispatch].
  - split; assumption.
  - split; [|exact He]. simpl. rewrite map_app. simpl.
    now apply NoDup_next_rowid.
  - rewrite list_expenses_db. split; assumption.
  - destruct (create_expense_db now company_name amount category_id
                sales_email due_date d) as [->| ->]; [split; assumption|].
    split; [exact Hc|]. simpl. rewrite map_app. simpl.
    now apply NoDup_next_rowid.
  - rewrite get_expense_db. split; assumption.
  - destruct (update_expense_db id company_name amount category_id sales_email
                due_date status d) as [->| ->]; [split; assumption|].
    split; [exact Hc|]. simpl. now rewrite sql_update_ids.
  - rewrite delete_expense_db. destruct (fits_int64 id); [|split; assumption].
    split; [exact Hc|]. simpl. now apply delete_keeps_key.
  - rewrite get_spending_summary_eq. split; assumption.
Qed.

Lemma run_primary_keys (calls : list call) (d : db) :
  primary_keys d -> primary_keys (run calls d).
Proof.
  revert d. induction calls as [|c calls IH]; intros d Hd; simpl.
  - exact Hd.
  - apply IH. now apply dispatch_primary_keys.
Qed.

Lemma with_fields_status (company_name : option string) (amount : option Q)
    (category_id : option Z) (sales_email due_date status : option string)
    (e : Expense.t) :
  (forall s, status = Some s -> valid_status s) ->
  valid_status (Expense.status e) ->
  valid_status
    (Expense.status (with_fields company_name amount category_id sales_email
                                 due_date status e)).
Proof.
  intros Hs He. destruct status as [s|]; simpl; [now apply Hs|exact He].
Qed.

Lemma dispatch_statuses (c : call) (d : db) :
  status_respected c -> statuses_valid d ->
  statuses_valid (snd (dispatch c d)).
Proof.
  unfold statuses_valid. intros Hc Hd. destruct c; cbn [dispatch];
    try exact Hd.
  - now rewrite list_expenses_db.
  - destruct (create_expense_db now company_name amount category_id
                sales_email due_date d) as [->| ->]; [exact Hd|].
    cbn [expenses]. apply Forall_app. split; [exact Hd|].
    constructor; [|constructor]. now left.
  - now rewrite get_expense_db.
  - destruct (update_expense_db id company_name amount category_id sales_email
                due_date status d) as [->| ->]; [exact Hd|].
    simpl. unfold sql_update. apply Forall_forall. intros e' He'.
    apply in_map_iff in He'. destruct He' as [e [<- He]].
    rewrite Forall_forall in Hd. specialize (Hd e He).
    destruct (Expense.id e =? id)%Z; [|exact Hd].
    rewrite assign_build_updates. apply with_fields_status; [|exact Hd].
    intros s ->. exact Hc.
  - rewrite delete_expense_db. destruct (fits_int64 id); [|exact Hd].
    cbn [expenses]. apply Forall_forall. intros e He. apply filter_In in He.
    rewrite Forall_forall in Hd. now apply Hd.
  - now rewrite get_spending_summary_eq.
Qed.

(** C9 (as amended). Starting from a database whose statuses are all one
    of 'pending', 'paid', 'cancelled', any sequence of tool calls in which
    every [update_expense] that supplies a status supplies one of these
    three leaves a database whose statuses are all one of the three. *)
Theorem statuses_stay_valid (calls : list call) (d : db) :
  statuses_valid d ->
  Forall status_respected calls ->
  statuses_valid (run calls d).
Proof.
  intros Hd Hcalls. revert d Hd.
  induction Hcalls as [|c calls Hc _ IH]; intros d Hd; simpl.
  - exact Hd.
  - apply IH. now apply dispatch_statuses.
Qed.

(** C9, witness: an expense is created in the empty database, then paid. *)
Lemma statuses_stay_valid_witness :
  statuses_valid empty_db /\
  Forall status_respected
    [CreateExpense "2024-12-02 09:00:00" "TechSupplies Inc" 891
                   1 "billing@techsupplies.com" None;
     UpdateExpense 1 None None None None None (Some "paid"%string)] /\
  statuses_valid
    (run [CreateExpense "2024-12-02 09:00:00" "TechSupplies Inc" 891
                        1 "billing@techsupplies.com" None;
          UpdateExpense 1 None None None None None (Some "paid"%string)]
         empty_db).
Proof.
  assert (Hd : statuses_valid empty_db) by constructor.
  assert (Hcalls : Forall status_respected
    [CreateExpense "2024-12-02 09:00:00" "TechSupplies Inc" 891
                   1 "billing@techsupplies.com" None;
     UpdateExpense 1 None None None None None (Some "paid"%string)]).
  { constructor; [exact I|]. constructor; [|constructor].
    simpl. right. now left. }
  split; [exact Hd|]. split; [exact Hcalls|].
  exact (statuses_stay_valid _ empty_db Hd Hcalls).
Defined.

(** C9 (as stated) fails: [update_expense] stores the status it is given.
    After creating an expense in the empty database and updating its
    status to 'archived', the row's status is none of the three. *)
Lemma status_outside_enumeration :
  expenses
    (run [CreateExpense "2024-12-02 09:00:00" "TechSupplies Inc" 891
                        1 "billing@techsupplies.com" None;
          UpdateExpense 1 None None None None None (Some "archived"%string)]
         empty_db) =
    [Expense.mk 1 1 "TechSupplies Inc" 891 "billing@techsupplies.com" None
                "archived" None "2024-12-02 09:00:00"] /\
  ~ statuses_valid
      (run [CreateExpense "2024-12-02 09:00:00" "TechSupplies Inc" 891
                          1 "billing@techsupplies.com" None;
            UpdateExpense 1 None None None None None (Some "archived"%string)]
           empty_db).
Proof.
  split; [reflexivity|].
  intros H. inversion H as [|e l Hst _]; subst.
  destruct Hst as [Hs|[Hs|Hs]]; discriminate Hs.
Qed.

(* ================================================================== *)
(** * create_category *)


(* ================================================================== *)
(** * get_expense and delete_expense on a row that exists *)

(** With [id] a key, the WHERE clause [id = ?] selects the one row. *)
Lemma row_of_id (e : Expense.t) (rows : list Expense.t) :
  NoDup (map Expense.id rows) -> In e rows ->
  filter (fun x => (Expense.id x =? Expense.id e)%Z) rows = [e].
Proof.
  induction rows as [|x rows IH]; simpl; intros Hkey Hin; [contradiction|].
  apply NoDup_cons_iff in Hkey. destruct Hkey as [Hfresh Hkey].
  destruct Hin as [->|Hin].
  - rewrite Z.eqb_refl. f_equal. apply where_no_row, Forall_forall.
    intros y Hy. apply Z.eqb_neq. intros E. apply Hfresh. rewrite <- E.
    now apply in_map.
  - destruct (Z.eqb_spec (Expense.id x) (Expense.id e)) as [E|_].
    + exfalso. apply Hfresh. rewrite E. now apply in_map.
    + now apply IH.
Qed.

(** X2. On a database whose ids are primary keys, [get_expense] on the id
    of a stored row (a rowid, which fits an SQLite INTEGER) dumps exactly
    that row and leaves the database as it was. *)
Theorem get_expense_lookup (d : db) (e : Expense.t) :
  primary_keys d ->
  In e (expenses d) ->
  fits_int64 (Expense.id e) = true ->
  get_expense (Expense.id e) d = (Dumps (expense_json e), d).
Proof.
  intros [_ Hkey] Hin Hfit. unfold get_expense. rewrite bindable_id, Hfit.
  unfold expenses_with_id.
  now rewrite (row_of_id e (expenses d) Hkey Hin).
Qed.

(** X2, witness: expense 2 of [sample_db]. *)
Lemma get_expense_lookup_witness :
  primary_keys sample_db /\
  fits_int64 2 = true /\
  In (Expense.mk 2 1 "CloudHost" (199 # 2) "ar@cloudhost.example"
                 None "pending" None "2024-12-03 09:00:00")
     (expenses sample_db) /\
  get_expense 2 sample_db =
    (Dumps (expense_json
              (Expense.mk 2 1 "CloudHost" (199 # 2) "ar@cloudhost.example"
                          None "pending" None "2024-12-03 09:00:00")),
     sample_db).
Proof.
  assert (Hin : In (Expense.mk 2 1 "CloudHost" (199 # 2)
                      "ar@cloudhost.example" None "pending" None
                      "2024-12-03 09:00:00") (expenses sample_db)).
  { simpl. right. now left. }
  split; [exact sample_db_keys|]. split; [reflexivity|].
  split; [exact Hin|].
  exact (get_expense_lookup sample_db _ sample_db_keys Hin eq_refl).
Defined.

(** X3. On a database whose ids are primary keys, [delete_expense] on the
    id of a stored row (a rowid, which fits an SQLite INTEGER) replies
    success and removes that row and no other: the rows before it and
    after it stay, in order, and [categories] is untouched. *)
Theorem delete_expense_removes (d : db) (e : Expense.t) :
  primary_keys d ->
  In e (expenses d) ->
  fits_int64 (Expense.id e) = true ->
  exists before after : list Expense.t,
    expenses d = before ++ e :: after /\
    delete_expense (Expense.id e) d =
      (Text [Lit "Expense "; FmtInt (Expense.id e);
             Lit " deleted successfully"],
       mkdb (categories d) (before ++ after)).
Proof.
  intros [_ Hkey] Hin Hfit.
  destruct (in_split e (expenses d) Hin) as (before & after & Hsplit).
  exists before, after. split; [exact Hsplit|].
  assert (Hother : Forall (fun x => negb (Expense.id x =? Expense.id e)%Z = true)
                          (before ++ after)).
  { rewrite Hsplit, map_app in Hkey. simpl in Hkey.
    apply NoDup_remove_2 in Hkey.
    apply Forall_forall. intros x Hx.
    apply negb_true_iff, Z.eqb_neq. intros E. apply Hkey. rewrite <- E.
    rewrite <- map_app. now apply in_map. }
  unfold delete_expense. rewrite bindable_id, Hfit.
  unfold expenses_with_id.
  rewrite (row_of_id e (expenses d) Hkey Hin). cbn [length Nat.eqb].
  f_equal. f_equal. rewrite Hsplit, filter_app. cbn [filter].
  rewrite Z.eqb_refl. cbn [negb]. rewrite <- filter_app.
  now apply where_every_row.
Qed.

(** X3, witness: deleting expense 2 of [sample_db]. *)
Lemma delete_expense_removes_witness :
  primary_keys sample_db /\
  fits_int64 2 = true /\
  In (Expense.mk 2 1 "CloudHost" (199 # 2) "ar@cloudhost.example"
                 None "pending" None "2024-12-03 09:00:00")
     (expenses sample_db) /\
  exists before after : list Expense.t,
    expenses sample_db =
      before ++ Expense.mk 2 1 "CloudHost" (199 # 2) "ar@cloudhost.example"
                           None "pending" None "2024-12-03 09:00:00"
             :: after /\
    delete_expense 2 sample_db =
      (Text [Lit "Expense "; FmtInt 2; Lit " deleted successfully"],
       mkdb (categories sample_db) (before ++ after)).
Proof.
  assert (Hin : In (Expense.mk 2 1 "CloudHost" (199 # 2)
                      "ar@cloudhost.example" None "pending" None
                      "2024-12-03 09:00:00") (expenses sample_db)).
  { simpl. right. now left. }
  split; [exact sample_db_keys|]. split; [reflexivity|].
  split; [exact Hin|].
  exact (delete_expense_removes sample_db _ sample_db_keys Hin eq_refl).
Defined.

(** X4. For an [id] that fits an SQLite INTEGER: after
    [delete_expense id], whether or not a row was deleted, no row has
    that id; [get_expense id] and a second [delete_expense id] both reply
    not-found and change nothing. *)
Theorem delete_expense_then_absent (id : Z) (d : db) :
  fits_int64 id = true ->
  let d' := snd (delete_expense id d) in
  ~ expense_exists id d' /\
  get_expense id d' = (not_found id, d') /\
  delete_expense id d' = (not_found id, d').
Proof.
  intros Hfit d'.
  assert (Habs : ~ expense_exists id d').
  { subst d'. rewrite delete_expense_db, Hfit. unfold expense_exists. simpl.
    intros Hin. apply in_map_iff in Hin. destruct Hin as (e & Hid & Hin).
    apply filter_In in Hin. destruct Hin as [_ Hne].
    apply negb_true_iff, Z.eqb_neq in Hne. contradiction. }
  split; [exact Habs|]. split.
  - now apply get_expense_absent.
  - now apply delete_expense_absent.
Qed.

(** X4, witness: deleting expense 2 of [sample_db], twice. *)
Lemma delete_expense_then_absent_witness :
  fits_int64 2 = true /\
  ~ expense_exists 2 (snd (delete_expense 2 sample_db)) /\
  get_expense 2 (snd (delete_expense 2 sample_db)) =
    (not_found 2, snd (delete_expense 2 sample_db)) /\
  delete_expense 2 (snd (delete_expense 2 sample_db)) =
    (not_found 2, snd (delete_expense 2 sample_db)).
Proof.
  split; [reflexivity|].
  exact (delete_expense_then_absent 2 sample_db eq_refl).
Defined.

(* ================================================================== *)
(** * What no sequence of calls does *)

(** X5. Whatever calls are made on an empty database, [id] stays a primary
    key of both tables: no tool ever stores two rows with one id. *)
Theorem reachable_primary_keys (calls : list call) :
  primary_keys (run calls empty_db).
Proof.
  apply run_primary_keys. split; constructor.
Qed.

Lemma dispatch_categories (c : call) (d : db) :
  exists added, categories (snd (dispatch c d)) = categories d ++ added.
Proof.
  destruct c; cbn [dispatch].
  - exists []. now rewrite app_nil_r.
  - eexists. reflexivity.
  - exists []. now rewrite app_nil_r, list_expenses_db.
  - exists []. rewrite app_nil_r.
    now destruct (create_expense_db now company_name amount category_id
                    sales_email due_date d) as [->| ->].
  - exists []. now rewrite app_nil_r, get_expense_db.
  - exists []. rewrite app_nil_r.
    now destruct (update_expense_db id company_name amount category_id
                    sales_email due_date status d) as [->| ->].
  - exists []. rewrite app_nil_r, delete_expense_db.
    now destruct (fits_int64 id).
  - exists []. now rewrite app_nil_r, get_spending_summary_eq.
Qed.

(** X6. The category table only grows at its end: after any sequence of
    calls the rows it had are still there, unchanged and in the same
    order, followed by the rows created since. *)
Theorem categories_append_only (calls : list call) (d : db) :
  exists added : list Category.t,
    categories (run calls d) = categories d ++ added.
Proof.
  revert d. induction calls as [|c calls IH]; intros d; simpl.
  - exists []. now rewrite app_nil_r.
  - destruct (IH (snd (dispatch c d))) as [more Hmore].
    destruct (dispatch_categories c d) as [added Hadded].
    exists (added ++ more). now rewrite Hmore, Hadded, app_assoc.
Qed.

(** The UPDATE statement never names [id], [invoice_url] or
    [created_at]. *)
Lemma fold_assign_fixed (ups : list assignment) (e : Expense.t) :
  Expense.invoice_url (fold_left assign ups e) = Expense.invoice_url e /\
  Expense.created_at (fold_left assign ups e) = Expense.created_at e.
Proof.
  revert e. induction ups as [|a ups IH]; intros e; simpl; [now split|].
  destruct (IH (assign e a)) as [-> ->]. now destruct e, a.
Qed.

(** X7. Every expense row a tool call leaves is either a row that was
    there before, with the same [id], [created_at] and [invoice_url], or
    a new row with a new id, [status = 'pending'] and no [invoice_url]. *)
Theorem dispatch_row_origin (c : call) (d : db) (e' : Expense.t) :
  In e' (expenses (snd (dispatch c d))) ->
  (exists e, In e (expenses d) /\
             Expense.id e' = Expense.id e /\
             Expense.created_at e' = Expense.created_at e /\
             Expense.invoice_url e' = Expense.invoice_url e) \/
  (~ In (Expense.id e') (map Expense.id (expenses d)) /\
   Expense.status e' = "pending"%string /\
   Expense.invoice_url e' = None).
Proof.
  assert (Hsame : In e' (expenses d) ->
    exists e, In e (expenses d) /\ Expense.id e' = Expense.id e /\
              Expense.created_at e' = Expense.created_at e /\
              Expense.invoice_url e' = Expense.invoice_url e).
  { intros H. exists e'. now repeat split. }
  destruct c; cbn [dispatch]; try (intros H; left; now apply Hsame).
  - rewrite list_expenses_db. intros H. left. now apply Hsame.
  - destruct (create_expense_db now company_name amount category_id
                sales_email due_date d) as [->| ->]; intros H.
    + left. now apply Hsame.
    + cbn [expenses] in H. apply in_app_or in H.
      destruct H as [H|[<-|[]]].
      * left. now apply Hsame.
      * right. simpl. split; [|now split].
        intros Hin. apply next_rowid_fresh in Hin. lia.
  - rewrite get_expense_db. intros H. left. now apply Hsame.
  - destruct (update_expense_db id company_name amount category_id sales_email
                due_date status d) as [->| ->]; intros H.
    + left. now apply Hsame.
    + left. simpl in H. unfold sql_update in H. apply in_map_iff in H.
      destruct H as (e & <- & He). exists e. split; [exact He|].
      destruct (Expense.id e =? id)%Z; [|now repeat split].
      rewrite fold_assign_id.
      destruct (fold_assign_fixed
                  (build_updates company_name amount category_id sales_email
                                 due_date status) e) as [-> ->].
      now repeat split.
  - rewrite delete_expense_db. destruct (fits_int64 id); intros H.
    + cbn [expenses] in H. apply filter_In in H. left. now apply Hsame.
    + left. now apply Hsame.
  - rewrite get_spending_summary_eq. intros H. left. now apply Hsame.
Qed.

(** X7, witness: the row that creating an expense in [sample_db] adds. *)
Lemma dispatch_row_origin_witness :
  In (Expense.mk 4 2 "AdCo" 40 "ads@adco.example" None "pending" None
                 "2024-12-05 09:00:00")
     (expenses (snd (dispatch
        (CreateExpense "2024-12-05 09:00:00" "AdCo" 40 2 "ads@adco.example"
                       None) sample_db))) /\
  ((exists e, In e (expenses sample_db) /\
              4%Z = Expense.id e /\
              "2024-12-05 09:00:00"%string = Expense.created_at e /\
              None = Expense.invoice_url e) \/
   (~ In 4%Z (map Expense.id (expenses sample_db)) /\
    "pending"%string = "pending"%string /\
    @None string = None)).
Proof.
  assert (Hin : In (Expense.mk 4 2 "AdCo" 40 "ads@adco.example" None
                      "pending" None "2024-12-05 09:00:00")
     (expenses (snd (dispatch
        (CreateExpense "2024-12-05 09:00:00" "AdCo" 40 2 "ads@adco.example"
                       None) sample_db)))).
  { simpl. intuition. }
  split; [exact Hin|].
  exact (dispatch_row_origin _ sample_db _ Hin).
Defined.

(** X8. The tools never set [invoice_url]: in every database built from
    the empty one by tool calls, it is NULL in every expense row. *)
Theorem invoice_url_never_set (calls : list call) :
  Forall (fun e => Expense.invoice_url e = None)
         (expenses (run calls empty_db)).
Proof.
  assert (Hstep : forall c d,
    Forall (fun e => Expense.invoice_url e = None) (expenses d) ->
    Forall (fun e => Expense.invoice_url e = None)
           (expenses (snd (dispatch c d)))).
  { intros c d Hd. destruct c; cbn [dispatch]; try exact Hd.
    - now rewrite list_expenses_db.
    - destruct (create_expense_db now company_name amount category_id
                  sales_email due_date d) as [->| ->]; [exact Hd|].
      cbn [expenses]. apply Forall_app. split; [exact Hd|].
      now repeat constructor.
    - now rewrite get_expense_db.
    - destruct (update_expense_db id company_name amount category_id
                  sales_email due_date status d) as [->| ->]; [exact Hd|].
      simpl. unfold sql_update. apply Forall_forall. intros e' He'.
      apply in_map_iff in He'. destruct He' as (e & <- & He).
      rewrite Forall_forall in Hd. specialize (Hd e He).
      destruct (Expense.id e =? id)%Z; [|exact Hd].
      now destruct (fold_assign_fixed
                      (build_updates company_name amount category_id
                                     sales_email due_date status) e) as [-> _].
    - rewrite delete_expense_db. destruct (fits_int64 id); [|exact Hd].
      cbn [expenses]. apply Forall_forall. intros e He.
      apply filter_In in He. rewrite Forall_forall in Hd. now apply Hd.
    - now rewrite get_spending_summary_eq. }
  assert (Hrun : forall d,
    Forall (fun e => Expense.invoice_url e = None) (expenses d) ->
    Forall (fun e => Expense.invoice_url e = None) (expenses (run calls d))).
  { induction calls as [|c calls IH]; intros d Hd; simpl; [exact Hd|].
    apply IH. now apply Hstep. }
  apply Hrun. constructor.
Qed.

(* ================================================================== *)
(** * How the tools compose *)

(** A row that is not paid joins no category. *)
Lemma left_join_unpaid (cats : list Category.t) (es : list Expense.t)
    (e : Expense.t) :
  is_paid e = false ->
  Sql.left_join on_paid cats (es ++ [e]) = Sql.left_join on_paid cats es.
Proof.
  intros Hunpaid. unfold Sql.left_join.
  induction cats as [|c cats IH]; simpl; [reflexivity|].
  rewrite IH. f_equal. unfold Sql.join_row. rewrite filter_app. simpl.
  unfold on_paid at 2. unfold is_paid in Hunpaid. rewrite Hunpaid.
  now rewrite andb_false_r, app_nil_r.
Qed.

(** X9. A new expense is pending, and pending expenses are not summed:
    after [create_expense], [list_categories] and [get_spending_summary]
    reply what they replied before. *)
Theorem create_expense_keeps_totals (now company_name : string) (amount : Q)
    (category_id : Z) (sales_email : string) (due_date : option string)
    (d : db) :
  let d' := snd (create_expense now company_name amount category_id
                                sales_email due_date d) in
  fst (list_categories d') = fst (list_categories d) /\
  fst (get_spending_summary d') = fst (get_spending_summary d).
Proof.
  intros d'.
  assert (Hgroups : categories_by_id d' = categories_by_id d).
  { subst d'.
    destruct (create_expense_db now company_name amount category_id
                sales_email due_date d) as [->| ->]; [reflexivity|].
    unfold categories_by_id. cbn [categories expenses].
    now rewrite left_join_unpaid. }
  split.
  - unfold list_categories, select_categories. cbn [fst]. now rewrite Hgroups.
  - rewrite !get_spending_summary_eq. cbn [fst].
    unfold spending_summary, select_summary. now rewrite Hgroups.
Qed.

(** What [total_spending] is, for any database with distinct category
    ids. *)
Lemma total_spending_value (d : db) :
  NoDup (map Category.id (categories d)) ->
  snd (spending_summary d) == total (map Expense.amount (paid_in_category d)).
Proof.
  intros Hnd. rewrite spending_summary_eq. cbn [snd].
  rewrite py_sum_total, (select_summary_rows d Hnd), !map_map.
  rewrite <- (total_by_category d Hnd).
  rewrite (total_map_ext _ _ (fun c => total_paid (Category.id c) d)).
  - apply total_perm, Permutation_map, order_by_desc_perm.
  - intros c. apply (summary_entry_of_category d c).
Qed.

Lemma total_cons (x : Q) (xs : list Q) : total (x :: xs) = x + total xs.
Proof. reflexivity. Qed.

(** Marking one unpaid row of an existing category as paid adds its
    amount to the sum over the counted rows. *)
Lemma total_after_paying (cats : list Category.t) (e : Expense.t)
    (rows : list Expense.t) :
  NoDup (map Expense.id rows) -> In e rows ->
  is_paid e = false ->
  has_category (mkdb cats rows) e = true ->
  total (map Expense.amount
    (filter (fun x => is_paid x && has_category (mkdb cats rows) x)
       (map (fun x => if (Expense.id x =? Expense.id e)%Z
                      then with_fields None None None None None
                                       (Some "paid"%string) x
                      else x) rows))) ==
  total (map Expense.amount
    (filter (fun x => is_paid x && has_category (mkdb cats rows) x) rows))
  + Expense.amount e.
Proof.
  unfold has_category. cbn [categories]. intros Hkey Hin Hunpaid Hcat.
  induction rows as [|x rows IH]; [contradiction|].
  cbn [map] in Hkey. apply NoDup_cons_iff in Hkey.
  destruct Hkey as [Hfresh Hkey]. destruct Hin as [->|Hin].
  - cbn [map filter]. rewrite Z.eqb_refl.
    assert (Hrest : map (fun x => if (Expense.id x =? Expense.id e)%Z
                      then with_fields None None None None None
                                       (Some "paid"%string) x
                      else x) rows = rows).
    { rewrite <- (map_id rows) at 2. apply map_ext_in. intros y Hy.
      destruct (Z.eqb_spec (Expense.id y) (Expense.id e)) as [E|_];
        [|reflexivity].
      exfalso. apply Hfresh. rewrite <- E. now apply in_map. }
    rewrite Hrest, Hunpaid. cbn [andb].
    unfold is_paid at 1. cbn [with_fields supplied_or Expense.status
                               Expense.category_id].
    rewrite Hcat.
    replace (("paid" =? "paid")%string && true) with true by reflexivity.
    cbn [map]. rewrite total_cons.
    cbn [with_fields supplied_or Expense.amount]. ring.
  - cbn [map filter].
    destruct (Z.eqb_spec (Expense.id x) (Expense.id e)) as [E|_].
    + exfalso. apply Hfresh. rewrite E. now apply in_map.
    + destruct (is_paid x &&
                existsb (fun c => (Category.id c =? Expense.category_id x)%Z)
                        cats); cbn [map]; rewrite ?total_cons;
        rewrite (IH Hkey Hin); ring.
Qed.

(** X10. On a database whose ids are primary keys, marking as paid a
    stored expense (its id a rowid, which fits an SQLite INTEGER) that was
    not paid and whose category exists raises [total_spending] by exactly
    that expense's amount. *)
Theorem paying_adds_amount (d : db) (e : Expense.t) :
  primary_keys d ->
  In e (expenses d) ->
  fits_int64 (Expense.id e) = true ->
  Expense.status e <> "paid"%string ->
  has_category d e = true ->
  let d' := snd (update_expense (Expense.id e) None None None None None
                                (Some "paid"%string) d) in
  exists (s s' : list Summary.t) (t t' : Q),
    get_spending_summary d = (summary_reply s t, d) /\
    get_spending_summary d' = (summary_reply s' t', d') /\
    t' == t + Expense.amount e.
Proof.
  intros [Hc Hkey] Hin Hfit Hst Hcat d'.
  assert (Hnone : fits_if_supplied None).
  { intros c0 H0. discriminate H0. }
  exists (fst (spending_summary d)), (fst (spending_summary d')),
         (snd (spending_summary d)), (snd (spending_summary d')).
  split; [apply get_spending_summary_eq|].
  split; [apply get_spending_summary_eq|].
  assert (Hex : expense_exists (Expense.id e) d).
  { unfold expense_exists. now apply in_map. }
  assert (Hsome : ~ nothing_supplied None None None None None
                      (Some "paid"%string)).
  { intros (_ & _ & _ & _ & _ & H). discriminate H. }
  assert (Hd' : d' = mkdb (categories d)
            (map (fun x => if (Expense.id x =? Expense.id e)%Z
                           then with_fields None None None None None
                                            (Some "paid"%string) x
                           else x) (expenses d))).
  { subst d'.
    now rewrite (update_expense_present _ _ _ _ _ _ _ d Hfit Hnone Hex Hsome). }
  assert (Hunpaid : is_paid e = false).
  { unfold is_paid. now apply String.eqb_neq. }
  rewrite (total_spending_value d Hc).
  rewrite (total_spending_value d') by (now rewrite Hd').
  rewrite Hd'. unfold paid_in_category. cbn [categories expenses].
  destruct d as [cats rows]. cbn [categories expenses] in *.
  exact (total_after_paying cats e rows Hkey Hin Hunpaid Hcat).
Qed.

(** X10, witness: paying expense 2 of [sample_db]. *)
Lemma paying_adds_amount_witness :
  primary_keys sample_db /\
  fits_int64 2 = true /\
  In (Expense.mk 2 1 "CloudHost" (199 # 2) "ar@cloudhost.example"
                 None "pending" None "2024-12-03 09:00:00")
     (expenses sample_db) /\
  exists (s s' : list Summary.t) (t t' : Q),
    get_spending_summary sample_db = (summary_reply s t, sample_db) /\
    get_spending_summary
      (snd (update_expense 2 None None None None None (Some "paid"%string)
                           sample_db)) =
      (summary_reply s' t',
       snd (update_expense 2 None None None None None (Some "paid"%string)
                           sample_db)) /\
    t' == t + (199 # 2).
Proof.
  assert (Hin : In (Expense.mk 2 1 "CloudHost" (199 # 2)
                      "ar@cloudhost.example" None "pending" None
                      "2024-12-03 09:00:00") (expenses sample_db)).
  { simpl. right. now left. }
  split; [exact sample_db_keys|]. split; [reflexivity|].
  split; [exact Hin|].
  refine (paying_adds_amount sample_db _ sample_db_keys Hin eq_refl _ _).
  - discriminate.
  - reflexivity.
Defined.

Lemma with_fields_twice (company_name : option string) (amount : option Q)
    (category_id : option Z) (sales_email due_date status : option string)
    (e : Expense.t) :
  with_fields company_name amount category_id sales_email due_date status
    (with_fields company_name amount category_id sales_email due_date status e)
  = with_fields company_name amount category_id sales_email due_date status e.
Proof.
  destruct e.
  destruct company_name, amount, category_id, sales_email, due_date, status;
    reflexivity.
Qed.

(** X11. Repeating an [update_expense] call changes nothing more: the
    second call gives the reply of the first and leaves the database the
    first one left. *)
Theorem update_expense_idempotent (id : Z) (company_name : option string)
    (amount : option Q) (category_id : option Z)
    (sales_email due_date status : option string) (d : db) :
  let r := update_expense id company_name amount category_id sales_email
                          due_date status d in
  update_expense id company_name amount category_id sales_email due_date
                 status (snd r) = r.
Proof.
  intros r. subst r.
  destruct (bindable [PInt id]) eqn:Hbid.
  2: { unfold update_expense. now rewrite Hbid. }
  destruct (fetchone (map Expense.id (expenses_with_id id d))) as [i|] eqn:Hrow.
  2: { unfold update_expense. rewrite Hbid, Hrow. cbn [snd].
       now rewrite Hrow. }
  destruct (build_updates company_name amount category_id sales_email due_date
                          status) as [|a ups] eqn:Hups.
  { unfold update_expense. rewrite Hbid, Hrow, Hups. cbn [snd].
    now rewrite Hrow. }
  destruct (bindable (map param_of (a :: ups) ++ [PInt id])) eqn:Hb.
  2: { unfold update_expense. rewrite Hbid, Hrow, Hups, Hb. cbn [snd].
       rewrite ?Hrow, ?Hb. reflexivity. }
  set (f := fold_left assign (a :: ups)).
  assert (Hid : forall e, Expense.id (f e) = Expense.id e).
  { intros e. apply fold_assign_id. }
  assert (Hfirst :
    update_expense id company_name amount category_id sales_email due_date
                   status d =
    (Text [Lit "Expense "; FmtInt id; Lit " updated successfully"],
     mkdb (categories d) (sql_update (a :: ups) id (expenses d)))).
  { unfold update_expense. now rewrite Hbid, Hrow, Hups, Hb. }
  rewrite Hfirst. cbn [snd]. unfold update_expense.
  rewrite Hbid, Hups. unfold expenses_with_id at 1. cbn [expenses].
  unfold sql_update at 1. fold f.
  rewrite (expenses_with_id_map id f (expenses d) Hid), map_map.
  rewrite (map_ext _ Expense.id Hid).
  unfold expenses_with_id in Hrow. rewrite Hrow, Hb.
  f_equal. cbn [categories]. f_equal.
  unfold sql_update. fold f. rewrite map_map.
  apply map_ext. intros e.
  destruct (Expense.id e =? id)%Z eqn:E.
  - rewrite Hid, E. unfold f. rewrite <- Hups, !assign_build_updates.
    apply with_fields_twice.
  - now rewrite E.
Qed.

(** X12. The summary and the listing agree: on a database whose ids are
    primary keys, the [by_category] entry of a stored category (its id a
    rowid, which fits an SQLite INTEGER) has as [expense_count] the number
    of rows that [list_expenses] returns for that category with
    [status = 'paid'], and as [total_spent] the sum of their amounts. *)
Theorem summary_agrees_with_listing (d : db) (c : Category.t) :
  primary_keys d ->
  In c (categories d) ->
  fits_int64 (Category.id c) = true ->
  exists (summary : list Summary.t) (total_spending : Q) (entry : Summary.t)
         (rows : list Expense.t),
    get_spending_summary d = (summary_reply summary total_spending, d) /\
    list_expenses (Some (Category.id c)) (Some "paid"%string) d =
      (Dumps (JList (map expense_json rows)), d) /\
    In entry summary /\
    Summary.category entry = Category.name c /\
    Summary.expense_count entry = Z.of_nat (length rows) /\
    Summary.total_spent entry == total (map Expense.amount rows).
Proof.
  intros [Hnd _] Hin Hfit.
  assert (Hpaid : Some "paid"%string <> Some ""%string) by discriminate.
  assert (Hcid : fits_if_supplied (Some (Category.id c))).
  { intros c0 H0. injection H0 as <-. exact Hfit. }
  exists (fst (spending_summary d)), (snd (spending_summary d)),
         (summary_entry (summary_row d c)),
         (Sql.order_by_desc String.leb Expense.created_at
            (filter (matches (Some (Category.id c)) (Some "paid"%string))
                    (expenses d))).
  split; [apply get_spending_summary_eq|]. split.
  { unfold list_expenses.
    now rewrite (select_expenses_rows _ _ d Hpaid Hcid). }
  assert (Hrows : Permutation
            (Sql.order_by_desc String.leb Expense.created_at
               (filter (matches (Some (Category.id c)) (Some "paid"%string))
                       (expenses d)))
            (paid_expenses (Category.id c) d)).
  { unfold paid_expenses.
    eapply perm_trans; [apply order_by_desc_perm|].
    erewrite filter_ext; [apply Permutation_refl|].
    intros e. reflexivity. }
  destruct (summary_entry_of_category d c) as (Hname & Htotal & Hcount & _).
  split; [|split; [exact Hname|split]].
  - rewrite spending_summary_eq, (select_summary_rows d Hnd). cbn [fst].
    rewrite map_map.
    apply (in_map (fun x => summary_entry (summary_row d x))).
    apply (Permutation_in c
             (Permutation_sym
                (order_by_desc_perm _ _ Qle_bool
                   (fun c0 => Summary.total_spent (summary_row d c0))
                   (categories d)))).
    exact Hin.
  - rewrite Hcount. unfold count_paid.
    now rewrite (Permutation_length Hrows).
  - rewrite Htotal. unfold total_paid.
    apply total_perm, Permutation_map, Permutation_sym, Hrows.
Qed.

(** X12, witness: category 1 of [sample_db]. *)
Lemma summary_agrees_with_listing_witness :
  primary_keys sample_db /\
  fits_int64 1 = true /\
  In (Category.mk 1 "Software" (Some "Software subscriptions and licenses"%string)
                  (Some 5000) "2024-12-01 10:00:00")
     (categories sample_db) /\
  exists (summary : list Summary.t) (total_spending : Q) (entry : Summary.t)
         (rows : list Expense.t),
    get_spending_summary sample_db =
      (summary_reply summary total_spending, sample_db) /\
    list_expenses (Some 1%Z) (Some "paid"%string) sample_db =
      (Dumps (JList (map expense_json rows)), sample_db) /\
    In entry summary /\
    Summary.category entry = "Software"%string /\
    Summary.expense_count entry = Z.of_nat (length rows) /\
    Summary.total_spent entry == total (map Expense.amount rows).
Proof.
  assert (Hin : In (Category.mk 1 "Software"
                      (Some "Software subscriptions and licenses"%string)
                      (Some 5000) "2024-12-01 10:00:00")
                   (categories sample_db)).
  { simpl. now left. }
  split; [exact sample_db_keys|]. split; [reflexivity|].
  split; [exact Hin|].
  exact (summary_agrees_with_listing sample_db _ sample_db_keys Hin eq_refl).
Defined.

(* ================================================================== *)
(** * Ints that do not fit an SQLite INTEGER *)

(** X15. For an [id] outside the signed 64-bit range, [get_expense],
    [update_expense] (with any optional arguments) and [delete_expense]
    raise [OverflowError], whatever the database holds, and leave it as
    it was. *)
Theorem overflowing_id_raises (id : Z) (d : db) :
  fits_int64 id = false ->
  get_expense id d = (Raise OverflowError, d) /\
  (forall company_name amount category_id sales_email due_date status,
     update_expense id company_name amount category_id sales_email due_date
                    status d = (Raise OverflowError, d)) /\
  delete_expense id d = (Raise OverflowError, d).
Proof.
  intros Hfit. split; [|split].
  - unfold get_expense. now rewrite bindable_id, Hfit.
  - intros. unfold update_expense. now rewrite bindable_id, Hfit.
  - unfold delete_expense. now rewrite bindable_id, Hfit.
Qed.

(** X15, witness: id 2^63 on [sample_db]. *)
Lemma overflowing_id_raises_witness :
  fits_int64 (2 ^ 63) = false /\
  get_expense (2 ^ 63) sample_db = (Raise OverflowError, sample_db) /\
  (forall company_name amount category_id sales_email due_date status,
     update_expense (2 ^ 63) company_name amount category_id sales_email
                    due_date status sample_db =
       (Raise OverflowError, sample_db)) /\
  delete_expense (2 ^ 63) sample_db = (Raise OverflowError, sample_db).
Proof.
  split; [exact fits_2_63|].
  exact (overflowing_id_raises (2 ^ 63) sample_db fits_2_63).
Defined.


